(** * OCR App: the proxy route and the upload page

    A shallow embedding of
      - [frontend/src/app/api/ocr/route.ts]  (the [POST] handler), and
      - [frontend/src/app/page.tsx]          (the handlers of [Home]),
    over a small model of the JavaScript values and Web APIs they touch.

    Asynchronous code is written in an event-trace monad: a computation
    either returns or throws, and records the observable effects it performs
    (backend calls, console writes, [useState] setter calls, file reads,
    downloads) in the order in which it performs them. *)

From Stdlib Require Import String Ascii List NArith Bool Floats DecimalString Lia.
Import ListNotations.
Local Open Scope string_scope.
Set Warnings "-register-all".
Set Warnings "-inexact-float".

(* ================================================================== *)
(** * JavaScript values and the runtime operations the sources use *)
(* ================================================================== *)

Module JS.

(** A JavaScript value as [JSON.parse] builds it, plus [undefined].
    Numbers are IEEE binary64; an object is the list of its own properties. *)
Inductive value : Type :=
| VUndefined
| VNull
| VBool (b : bool)
| VNum (n : float)
| VStr (s : string)
| VArr (items : list value)
| VObj (props : list (string * value)).

(** ToBoolean. *)
Definition truthy (v : value) : bool :=
  match v with
  | VUndefined | VNull => false
  | VBool b => b
  | VNum n => negb (PrimFloat.eqb n 0%float || PrimFloat.is_nan n)
  | VStr s => negb (s =? "")
  | VArr _ | VObj _ => true
  end.

(** [a || b] *)
Definition js_or (a b : value) : value := if truthy a then a else b.

Fixpoint lookup (k : string) (props : list (string * value)) : option value :=
  match props with
  | [] => None
  | (k', v) :: rest => if k' =? k then Some v else lookup k rest
  end.

(** The value read at [k] from an object with these own properties. *)
Definition field (k : string) (props : list (string * value)) : value :=
  match lookup k props with Some x => x | None => VUndefined end.

Definition keys (props : list (string * value)) : list string := map fst props.

(** An [Error] instance ([Error], [TypeError], [SyntaxError], ...). *)
Record Error : Type := { name : string; message : string }.

(** What a [throw] (or a rejected promise) carries. *)
Inductive thrown : Type :=
| ThrownError (e : Error)
| ThrownValue (v : value).

Section ToString.
(** Number::toString is the engine's; it is taken as given. *)
Variable number_to_string : float -> string.

(** ToString, with no result where the conversion throws. An object read
    from JSON has no function among its properties: an own [toString] key
    hides [Object.prototype.toString], and the conversion to a primitive
    fails; an array is joined from the conversions of its elements. *)
Fixpoint to_string (v : value) : option string :=
  match v with
  | VUndefined => Some "undefined"
  | VNull => Some "null"
  | VBool true => Some "true"
  | VBool false => Some "false"
  | VNum n => Some (number_to_string n)
  | VStr s => Some s
  | VArr items =>
      let element x :=
        match x with VUndefined | VNull => Some "" | _ => to_string x end in
      (fix join (xs : list value) : option string :=
         match xs with
         | [] => Some ""
         | [x] => element x
         | x :: rest =>
             match element x, join rest with
             | Some a, Some b => Some (a ++ "," ++ b)
             | _, _ => None
             end
         end) items
  | VObj props =>
      match lookup "toString" props with
      | Some _ => None
      | None => Some "[object Object]"
      end
  end.

(** Error.prototype.toString *)
Definition Error_toString (e : Error) : string :=
  if message e =? "" then name e
  else if name e =? "" then message e
  else name e ++ ": " ++ message e.
End ToString.

(** The TypeError raised by reading a property of [null] or [undefined]
    (Node.js wording). *)
Definition cannot_read (base : string) (k : string) : Error :=
  {| name := "TypeError";
     message :=
       "Cannot read properties of " ++ base ++ " (reading '" ++ k ++ "')" |}.

Section OwnProps.
Variable view : value -> value.

(** The properties [JSON.stringify] writes: those not holding
    [undefined]. *)
Fixpoint own_props (ps : list (string * value)) : list (string * value) :=
  match ps with
  | [] => []
  | (k, x) :: rest =>
      match x with
      | VUndefined => own_props rest
      | _ => (k, view x) :: own_props rest
      end
  end.
End OwnProps.

(** [-0], which [JSON.stringify] writes as [0]. *)
Definition negative_zero (n : float) : bool :=
  match PrimFloat.classify n with
  | NZero => true
  | _ => false
  end.

(** What [JSON.stringify] followed by [JSON.parse] leaves of a value:
    properties holding [undefined] are dropped, [undefined] array elements
    and non-finite numbers become [null], [-0] becomes [0]. *)
Fixpoint json_view (v : value) : value :=
  match v with
  | VUndefined => VUndefined
  | VNum n =>
      if PrimFloat.is_finite n
      then if negative_zero n then VNum 0%float else VNum n
      else VNull
  | VArr items =>
      VArr (map (fun x => match x with
                          | VUndefined => VNull
                          | _ => json_view x
                          end) items)
  | VObj props => VObj (own_props json_view props)
  | _ => v
  end.

(* ------------------------------------------------------------------ *)
(** ** Computations: return or throw, with a trace of effects *)

Inductive outcome (A : Type) : Type :=
| Returned (a : A)
| Threw (t : thrown).
Arguments Returned {A} a.
Arguments Threw {A} t.

Definition Eff (E A : Type) : Type := list E -> outcome A * list E.

Definition ret {E A} (a : A) : Eff E A := fun tr => (Returned a, tr).

Definition throw {E A} (t : thrown) : Eff E A := fun tr => (Threw t, tr).

Definition bind {E A B} (m : Eff E A) (k : A -> Eff E B) : Eff E B :=
  fun tr =>
    match m tr with
    | (Returned a, tr') => k a tr'
    | (Threw t, tr') => (Threw t, tr')
    end.

Definition emit {E} (e : E) : Eff E unit := fun tr => (Returned tt, (tr ++ [e])%list).

(** [try { body } catch (x) { handler x }], also [promise.catch(handler)]. *)
Definition try_catch {E A} (body : Eff E A) (handler : thrown -> Eff E A)
  : Eff E A :=
  fun tr =>
    match body tr with
    | (Returned a, tr') => (Returned a, tr')
    | (Threw t, tr') => handler t tr'
    end.

(** [try { body } finally { final }] where [final] neither returns a value
    of its own nor is expected to throw. *)
Definition try_finally {E A} (body : Eff E A) (final : Eff E unit)
  : Eff E A :=
  fun tr =>
    match body tr with
    | (r, tr') =>
        match final tr' with
        | (Returned _, tr'') => (r, tr'')
        | (Threw t, tr'') => (Threw t, tr'')
        end
    end.

Definition run {E A} (m : Eff E A) : outcome A * list E := m [].

Declare Scope eff_scope.
Delimit Scope eff_scope with eff.
Notation "x <- m ;; k" := (bind m (fun x => k))
  (at level 61, m at next level, right associativity) : eff_scope.
Notation "m ;;; k" := (bind m (fun _ => k))
  (at level 61, right associativity) : eff_scope.

(** [v.k] for the property names the sources read ([text], [confidence],
    [layout], [processing_time], [error]): none of them is a property of a
    primitive's or an array's prototype. *)
Definition get {E} (v : value) (k : string) : Eff E value :=
  match v with
  | VUndefined => throw (ThrownError (cannot_read "undefined" k))
  | VNull => throw (ThrownError (cannot_read "null" k))
  | VObj props => ret (field k props)
  | _ => ret VUndefined
  end.

(** [v.k] on a value that is neither [null] nor [undefined]. *)
Definition read (k : string) (v : value) : value :=
  match v with
  | VObj props => field k props
  | _ => VUndefined
  end.

(** The conversion of [v] to a primitive goes through (see [to_string]);
    [v * 100] needs it as [String(v)] does. *)
Fixpoint convertible (v : value) : bool :=
  match v with
  | VArr items => forallb convertible items
  | VObj props =>
      match lookup "toString" props with
      | Some _ => false
      | None => true
      end
  | _ => true
  end.

(** The TypeError of a failed conversion to a primitive (Node.js
    wording). *)
Definition cannot_convert : Error :=
  {| name := "TypeError";
     message := "Cannot convert object to primitive value" |}.

Section Conversions.
Variable number_to_string : float -> string.

(** ToString as a step of a computation. *)
Definition ToString {E} (v : value) : Eff E string :=
  match to_string number_to_string v with
  | Some s => ret s
  | None => throw (ThrownError cannot_convert)
  end.

(** [new Error(m)] *)
Definition new_Error {E} (m : value) : Eff E Error :=
  match m with
  | VUndefined => ret {| name := "Error"; message := "" |}
  | _ => (s <- ToString m ;; ret {| name := "Error"; message := s |})%eff
  end.

(** [String(x)] for a caught [x]. *)
Definition String_of_thrown {E} (t : thrown) : Eff E string :=
  match t with
  | ThrownError e => ret (Error_toString e)
  | ThrownValue v => ToString v
  end.
End Conversions.

(* ------------------------------------------------------------------ *)
(** ** Web APIs: File, FormData, fetch, Response *)

Record File : Type := { file_name : string; type : string; size : N }.

(** FormDataEntryValue *)
Inductive entry : Type :=
| EntryFile (f : File)
| EntryString (s : string).

Definition FormData : Type := list (string * entry).

(** [formData.get(k)]: the first value of that name, [null] if none. *)
Fixpoint FormData_get (fd : FormData) (k : string) : option entry :=
  match fd with
  | [] => None
  | (k', e) :: rest => if k' =? k then Some e else FormData_get rest k
  end.

Definition FormData_append (fd : FormData) (k : string) (e : entry) : FormData :=
  (fd ++ [(k, e)])%list.

Record RequestInit : Type := { method : string; body : FormData }.

Record FetchCall : Type := { url : string; init : RequestInit }.

(** [response.json()] resolves with the parsed body or rejects. *)
Inductive json_result : Type :=
| JsonRejects (e : Error)
| JsonResolves (v : value).

Record Response : Type := { status : N; body_json : json_result }.

(** [response.ok] *)
Definition ok (r : Response) : bool :=
  (200 <=? status r)%N && (status r <=? 299)%N.

Inductive fetch_result : Type :=
| FetchRejects (e : Error)
| FetchResolves (r : Response).

(** The world behind [fetch]. *)
Definition network : Type := FetchCall -> fetch_result.

Class FetchEvent (E : Type) : Type := fetch_event : FetchCall -> E.

Definition fetch {E} `{FetchEvent E} (net : network) (u : string)
    (i : RequestInit) : Eff E Response :=
  let call := {| url := u; init := i |} in
  (emit (fetch_event call) ;;;
   match net call with
   | FetchRejects e => throw (ThrownError e)
   | FetchResolves r => ret r
   end)%eff.

Definition Response_json {E} (r : Response) : Eff E value :=
  match body_json r with
  | JsonRejects e => throw (ThrownError e)
  | JsonResolves v => ret v
  end.

(** [process.env] *)
Record ProcessEnv : Type :=
  { BACKEND_URL : option string;
    NEXT_PUBLIC_BACKEND_URL : option string;
    NODE_ENV : option string }.

(** [process.env.X || fallback] *)
Definition env_or (x : option string) (fallback : string) : string :=
  match x with
  | Some s => if s =? "" then fallback else s
  | None => fallback
  end.

(** Decimal rendering of an integer inside a template literal. *)
Definition string_of_N (n : N) : string :=
  NilZero.string_of_uint (N.to_uint n).

(** A value that [JSON.stringify] writes and [JSON.parse] reads back as it
    is: no [undefined] inside, every number finite and none of them [-0]. *)
Fixpoint plain (v : value) : bool :=
  match v with
  | VUndefined => false
  | VNum n => PrimFloat.is_finite n && negb (negative_zero n)
  | VArr items => forallb plain items
  | VObj props => forallb (fun kv => plain (snd kv)) props
  | _ => true
  end.

End JS.

(* ================================================================== *)
(** * The proxy route: [frontend/src/app/api/ocr/route.ts] *)
(* ================================================================== *)

Module Route.
Import JS.
Local Open Scope eff_scope.

(** What the handler does to the outside world. *)
Inductive event : Type :=
| Fetch (c : FetchCall)
| ConsoleError (label : string) (x : thrown).

#[export] Instance route_fetch_event : FetchEvent event := Fetch.

(** The forwarding calls among the effects of a run. *)
Fixpoint backend_calls (tr : list event) : list FetchCall :=
  match tr with
  | [] => []
  | Fetch c :: rest => c :: backend_calls rest
  | ConsoleError _ _ :: rest => backend_calls rest
  end.

(** [request.formData()] resolves with the form or rejects. *)
Inductive formData_result : Type :=
| FormDataRejects (e : Error)
| FormDataResolves (fd : FormData).

Record NextRequest : Type := { request_formData : formData_result }.

Record NextResponse : Type := { response_status : N; response_body : value }.

(** [NextResponse.json(data, { status })]; the body is what the client
    reads back from the serialized [data]. *)
Definition NextResponse_json (data : value) (st : N) : NextResponse :=
  {| response_status := st; response_body := json_view data |}.

Definition formData (request : NextRequest) : Eff event FormData :=
  match request_formData request with
  | FormDataRejects e => throw (ThrownError e)
  | FormDataResolves fd => ret fd
  end.

(** [file.size] and [file.type] on a form entry: a string entry has
    neither ([undefined]). *)
Definition entry_size (file : entry) : option N :=
  match file with EntryFile f => Some (size f) | EntryString _ => None end.

Definition entry_type (file : entry) : option string :=
  match file with EntryFile f => Some (type f) | EntryString _ => None end.

(** [a > b] with [a] possibly [undefined]. *)
Definition gt (a : option N) (b : N) : bool :=
  match a with Some n => (b <? n)%N | None => false end.

(** [s.startsWith(p)] with [s] possibly [undefined]. *)
Definition startsWith (s : option string) (p : string) : Eff event bool :=
  match s with
  | Some s => ret (String.prefix p s)
  | None => throw (ThrownError (cannot_read "undefined" "startsWith"))
  end.

Definition error_body (msg : string) : value := VObj [("error", VStr msg)].

Section Handler.
Variable number_to_string : float -> string.
Variable env : ProcessEnv.
Variable net : network.

Definition POST (request : NextRequest) : Eff event NextResponse :=
  try_catch
    (formData <- formData request ;;
     match FormData_get formData "file" with
     | None | Some (EntryString EmptyString) =>          (* [!file] *)
         ret (NextResponse_json
                (error_body "ファイルが見つかりません") 400)
     | Some file =>
         if gt (entry_size file) (10 * 1024 * 1024) then
           ret (NextResponse_json
                  (error_body "ファイルサイズは10MB以下にしてください") 400)
         else
           image <- startsWith (entry_type file) "image/" ;;
           if negb image then
             ret (NextResponse_json
                    (error_body "画像ファイルを選択してください") 400)
           else
             let backendUrl :=
               env_or (BACKEND_URL env) "http://localhost:8000" in
             let backendFormData := FormData_append [] "file" file in
             response <-
               fetch net (backendUrl ++ "/api/v1/ocr/process")
                 {| method := "POST"; body := backendFormData |} ;;
             (if negb (ok response) then
                errorData <-
                  try_catch (Response_json response)
                    (fun _ =>
                       ret (error_body "バックエンドサーバーエラー")) ;;
                e <- get errorData "error" ;;
                failed <-
                  new_Error number_to_string
                    (js_or e
                       (VStr ("HTTPエラー: "
                              ++ string_of_N (status response)))) ;;
                throw (ThrownError failed)
              else ret tt) ;;;
             result <- Response_json response ;;
             text <- get result "text" ;;
             confidence <- get result "confidence" ;;
             layout <- get result "layout" ;;
             processing_time <- get result "processing_time" ;;
             ret (NextResponse_json
                    (VObj [("text", js_or text (VStr ""));
                           ("confidence", js_or confidence VNull);
                           ("layout", js_or layout VNull);
                           ("processing_time", js_or processing_time VNull)])
                    200)
     end)
    (fun error =>
       emit (ConsoleError "OCR API Error:" error) ;;;
       details <-
         match NODE_ENV env with
         | Some "development" =>
             d <- String_of_thrown number_to_string error ;; ret (VStr d)
         | _ => ret VUndefined
         end ;;
       ret (NextResponse_json
              (VObj [("error",
                      VStr match error with
                           | ThrownError e => message e
                           | ThrownValue _ =>
                               "OCR処理でエラーが発生しました"
                           end);
                     ("details", details)])
              500)).
End Handler.

End Route.

(* ================================================================== *)
(** * The upload page: [frontend/src/app/page.tsx] *)
(* ================================================================== *)

Module Page.
Import JS.
Local Open Scope eff_scope.

(** The five [useState] cells of [Home]. [ocrResult] holds whatever
    [response.json()] gave, [null] before that. *)
Record State : Type :=
  { file : option File;
    imagePreview : string;
    ocrResult : value;
    isProcessing : bool;
    error : string }.

Definition initial : State :=
  {| file := None;
     imagePreview := "";
     ocrResult := VNull;
     isProcessing := false;
     error := "" |}.

(** A call of one of the state setters. *)
Inductive setter : Type :=
| setFile (f : option File)
| setImagePreview (p : string)
| setOcrResult (r : value)
| setIsProcessing (b : bool)
| setError (e : string).

Definition set (u : setter) (s : State) : State :=
  match u with
  | setFile f =>
      {| file := f; imagePreview := imagePreview s; ocrResult := ocrResult s;
         isProcessing := isProcessing s; error := error s |}
  | setImagePreview p =>
      {| file := file s; imagePreview := p; ocrResult := ocrResult s;
         isProcessing := isProcessing s; error := error s |}
  | setOcrResult r =>
      {| file := file s; imagePreview := imagePreview s; ocrResult := r;
         isProcessing := isProcessing s; error := error s |}
  | setIsProcessing b =>
      {| file := file s; imagePreview := imagePreview s;
         ocrResult := ocrResult s; isProcessing := b; error := error s |}
  | setError e =>
      {| file := file s; imagePreview := imagePreview s;
         ocrResult := ocrResult s; isProcessing := isProcessing s;
         error := e |}
  end.

(** The file a click on the download anchor saves: the blob behind its
    [href] and the name in its [download] attribute. *)
Record Saved : Type :=
  { content : string; content_type : string; filename : string }.

(** What a handler does: setter calls, backend calls, local file reads
    and downloads. *)
Inductive event : Type :=
| Set_ (u : setter)
| Fetch (c : FetchCall)
| ReadAsDataURL (f : File)
| Download (d : Saved).

#[export] Instance page_fetch_event : FetchEvent event := Fetch.

(** The state once the setter calls of a trace have been applied. *)
Fixpoint state_after (tr : list event) (s : State) : State :=
  match tr with
  | [] => s
  | Set_ u :: rest => state_after rest (set u s)
  | _ :: rest => state_after rest s
  end.

Fixpoint network_calls (tr : list event) : list FetchCall :=
  match tr with
  | [] => []
  | Fetch c :: rest => c :: network_calls rest
  | _ :: rest => network_calls rest
  end.

(** Running a handler against a state. *)
Definition perform (h : Eff event unit) (s : State) : State :=
  state_after (snd (run h)) s.

(** [acceptedFiles[0]] *)
Definition first (acceptedFiles : list File) : option File :=
  match acceptedFiles with
  | [] => None
  | f :: _ => Some f
  end.

Definition onDrop (acceptedFiles : list File) : Eff event unit :=
  let reject := emit (Set_ (setError "画像ファイルを選択してください")) in
  match first acceptedFiles with
  | Some file =>
      if String.prefix "image/" (type file) then
        emit (Set_ (setFile (Some file))) ;;;
        emit (Set_ (setError "")) ;;;
        emit (ReadAsDataURL file)
      else reject
  | None => reject
  end.

(** [reader.onload], with [result] the data URL read. *)
Definition reader_onload (result : string) : Eff event unit :=
  emit (Set_ (setImagePreview result)).

Definition resetAll : Eff event unit :=
  emit (Set_ (setFile None)) ;;;
  emit (Set_ (setImagePreview "")) ;;;
  emit (Set_ (setOcrResult VNull)) ;;;
  emit (Set_ (setError "")).

Section Handlers.
Variable number_to_string : float -> string.
Variable env : ProcessEnv.
Variable net : network.

(** The handler closes over the state [s] of the render it belongs to. *)
Definition processOCR (s : State) : Eff event unit :=
  match file s with
  | None => ret tt
  | Some file =>
      emit (Set_ (setIsProcessing true)) ;;;
      emit (Set_ (setError "")) ;;;
      try_finally
        (try_catch
           (let formData := FormData_append [] "file" (EntryFile file) in
            response <-
              fetch net
                (env_or (NEXT_PUBLIC_BACKEND_URL env)
                   "https://ocr-app-production-91fe.up.railway.app"
                 ++ "/api/v1/ocr/process")
                {| method := "POST"; body := formData |} ;;
            (if negb (ok response) then
               failed <-
                 new_Error number_to_string (VStr "OCR処理に失敗しました") ;;
               throw (ThrownError failed)
             else ret tt) ;;;
            result <- Response_json response ;;
            emit (Set_ (setOcrResult result)))
           (fun err =>
              emit (Set_ (setError
                            match err with
                            | ThrownError e => message e
                            | ThrownValue _ =>
                                "OCR処理でエラーが発生しました"
                            end))))
        (emit (Set_ (setIsProcessing false)))
  end.

(** [now] is the value of [Date.now()]. A blob part that is not a string
    is converted to one, which can throw. *)
Definition downloadResult (s : State) (now : N) : Eff event unit :=
  if negb (truthy (ocrResult s)) then ret tt
  else
    text <- get (ocrResult s) "text" ;;
    blob <- ToString number_to_string text ;;
    emit (Download {| content := blob;
                      content_type := "text/plain";
                      filename :=
                        "ocr-result-" ++ string_of_N now ++ ".txt" |}).
End Handlers.

(** What the JSX of [Home] shows for a state. *)
Record View : Type :=
  { preview : option string;          (* the preview card and its image *)
    reset_button : bool;
    process_button : option bool;     (* rendered? then: disabled? *)
    error_box : option string;
    result_card : bool;
    download_button : bool;
    busy_card : bool;
    guide : bool }.

(** React can put [v] on the page as a child: text for a string or a
    number, nothing for [null], [undefined] and booleans, the elements of
    an array one after the other; an object is refused with an error. *)
Fixpoint child (v : value) : bool :=
  match v with
  | VObj _ => false
  | VArr items => forallb child items
  | _ => true
  end.

(** Building the result card for a stored result [r] goes through:
    [r.confidence * 100] when the confidence is truthy,
    [r.processing_time.toFixed(2)] when the processing time is truthy (a
    method of numbers only) with the model name below it as a child when
    that is truthy, and [r.text] as a child. *)
Definition card_renders (r : value) : bool :=
  (if truthy (read "confidence" r)
   then convertible (read "confidence" r)
   else true)
  && (if truthy (read "processing_time" r)
      then match read "processing_time" r with
           | VNum _ =>
               if truthy (read "model_used" r)
               then child (read "model_used" r)
               else true
           | _ => false
           end
      else true)
  && child (read "text" r).

(** Rendering [Home] goes through. *)
Definition renders (s : State) : bool :=
  if truthy (ocrResult s) then card_renders (ocrResult s) else true.

(** When rendering throws, nothing of [Home] is on the page. *)
Definition render (s : State) : View :=
  let has_preview := negb (imagePreview s =? "") in
  let has_result := truthy (ocrResult s) in
  if renders s then
    {| preview := if has_preview then Some (imagePreview s) else None;
       reset_button := has_preview;
       process_button := if has_preview then Some (isProcessing s) else None;
       error_box := if error s =? "" then None else Some (error s);
       result_card := has_result;
       download_button := has_result;
       busy_card := isProcessing s;
       guide :=
         match file s with None => negb has_result | Some _ => false end |}
  else
    {| preview := None;
       reset_button := false;
       process_button := None;
       error_box := None;
       result_card := false;
       download_button := false;
       busy_card := false;
       guide := false |}.

(** An async handler runs up to its [await fetch(...)], and goes on once
    the answer is there; other handlers can run in between. *)
Fixpoint until_fetch (tr : list event) : list event :=
  match tr with
  | [] => []
  | Fetch c :: _ => [Fetch c]
  | e :: rest => e :: until_fetch rest
  end.

Fixpoint after_fetch (tr : list event) : list event :=
  match tr with
  | [] => []
  | Fetch _ :: rest => rest
  | _ :: rest => after_fetch rest
  end.

(** The state when [other] runs while [h] waits for its answer. *)
Definition meanwhile (h other : Eff event unit) (s : State) : State :=
  let tr := snd (run h) in
  state_after (after_fetch tr) (perform other (state_after (until_fetch tr) s)).

End Page.

(* ================================================================== *)
(** * Vocabulary of the statements *)
(* ================================================================== *)

Module Vocabulary.
Import JS.

(** The request's form parses and [formData.get('file')] is [file]. *)
Definition carries (request : Route.NextRequest) (file : option entry) : Prop :=
  exists fd,
    Route.request_formData request = Route.FormDataResolves fd /\
    FormData_get fd "file" = file.

(** The one call the proxy makes for an accepted file. *)
Definition forwarding_call (env : ProcessEnv) (f : File) : FetchCall :=
  {| url := env_or (BACKEND_URL env) "http://localhost:8000"
            ++ "/api/v1/ocr/process";
     init := {| method := "POST"; body := [("file", EntryFile f)] |} |}.

(** A file entry one of the proxy's three checks turns down. *)
Definition invalid (file : option entry) : Prop :=
  file = None \/
  exists f, file = Some (EntryFile f) /\
            ((10 * 1024 * 1024 < size f)%N \/
             String.prefix "image/" (type f) = false).

(** The [error] string of a response body. *)
Definition error_of (resp : Route.NextResponse) : option string :=
  match Route.response_body resp with
  | VObj props =>
      match lookup "error" props with
      | Some (VStr m) => Some m
      | _ => None
      end
  | _ => None
  end.

(** The call the page makes for a selected file. *)
Definition direct_call (env : ProcessEnv) (f : File) : FetchCall :=
  {| url := env_or (NEXT_PUBLIC_BACKEND_URL env)
              "https://ocr-app-production-91fe.up.railway.app"
            ++ "/api/v1/ocr/process";
     init := {| method := "POST"; body := [("file", EntryFile f)] |} |}.

(** A drop the page turns down: nothing dropped, or a first file that is
    not an image. *)
Definition turned_down (acceptedFiles : list File) : Prop :=
  match acceptedFiles with
  | [] => True
  | f :: _ => String.prefix "image/" (type f) = false
  end.

(** The file passed the proxy's three checks. *)
Definition accepted (request : Route.NextRequest) (f : File) : Prop :=
  carries request (Some (EntryFile f))
  /\ (size f <= 10 * 1024 * 1024)%N
  /\ String.prefix "image/" (type f) = true.

(** [process.env.NODE_ENV === 'development'] *)
Definition is_development (env : ProcessEnv) : bool :=
  match NODE_ENV env with
  | Some s => s =? "development"
  | None => false
  end.

(** The message the proxy's catch-all reports for a caught [x]. *)
Definition reported (x : thrown) : string :=
  match x with
  | ThrownError e => message e
  | ThrownValue _ => "OCR処理でエラーが発生しました"
  end.

(** The console writes among the effects of the proxy. *)
Fixpoint console_errors (tr : list Route.event) : list thrown :=
  match tr with
  | [] => []
  | Route.ConsoleError _ x :: rest => x :: console_errors rest
  | Route.Fetch _ :: rest => console_errors rest
  end.

(** What the page stores for a backend outcome: the one setter call
    between the request and the end of the busy phase. *)
Definition settled (outcome : fetch_result) : Page.setter :=
  match outcome with
  | FetchRejects e => Page.setError (message e)
  | FetchResolves r =>
      if ok r then
        match body_json r with
        | JsonResolves v => Page.setOcrResult v
        | JsonRejects e => Page.setError (message e)
        end
      else Page.setError "OCR処理に失敗しました"
  end.

(** The answer of the proxy's catch-all for a caught [x] (everything the
    handler catches is an [Error]). *)
Definition failure (number_to_string : float -> string) (env : ProcessEnv)
    (x : thrown) : Route.NextResponse :=
  {| Route.response_status := 500;
     Route.response_body :=
       VObj (("error", VStr (reported x))
             :: if is_development env
                then match x with
                     | ThrownError e => [("details", VStr (Error_toString e))]
                     | ThrownValue v =>
                         match to_string number_to_string v with
                         | Some d => [("details", VStr d)]
                         | None => []
                         end
                     end
                else []) |}.

(** The four courses a run of the proxy can take: the effects it has and
    the answer it gives. *)
Inductive course (number_to_string : float -> string) (env : ProcessEnv)
    (request : Route.NextRequest)
  : list Route.event -> Route.NextResponse -> Prop :=
| Refused (m : string) :
    m <> "" ->
    course number_to_string env request []
      {| Route.response_status := 400;
         Route.response_body := VObj [("error", VStr m)] |}
| FailedBeforeCall (e : Error) :
    course number_to_string env request
      [Route.ConsoleError "OCR API Error:" (ThrownError e)]
      (failure number_to_string env (ThrownError e))
| FailedAfterCall (f : File) (e : Error) :
    accepted request f ->
    course number_to_string env request
      [Route.Fetch (forwarding_call env f);
       Route.ConsoleError "OCR API Error:" (ThrownError e)]
      (failure number_to_string env (ThrownError e))
| Normalized (f : File) (t c l p : value) :
    accepted request f ->
    course number_to_string env request
      [Route.Fetch (forwarding_call env f)]
      {| Route.response_status := 200;
         Route.response_body :=
           VObj [("text", t); ("confidence", c);
                 ("layout", l); ("processing_time", p)] |}.

End Vocabulary.

(* ================================================================== *)
(** * Sample inputs *)
(* ================================================================== *)

Module Samples.
Import JS.

Definition plain_numbers : float -> string := fun _ => "0".

Definition no_env : ProcessEnv :=
  {| BACKEND_URL := None; NEXT_PUBLIC_BACKEND_URL := None; NODE_ENV := None |}.

Definition png : File :=
  {| file_name := "scan.png"; type := "image/png"; size := 204800 |}.

Definition pdf : File :=
  {| file_name := "notes.pdf"; type := "application/pdf"; size := 1024 |}.

Definition big_png : File :=
  {| file_name := "poster.png"; type := "image/png";
     size := 10 * 1024 * 1024 + 1 |}.

Definition full_png : File :=
  {| file_name := "page.png"; type := "image/png"; size := 10 * 1024 * 1024 |}.

Definition upload (f : File) : Route.NextRequest :=
  {| Route.request_formData := Route.FormDataResolves [("file", EntryFile f)] |}.

Definition empty_form : Route.NextRequest :=
  {| Route.request_formData := Route.FormDataResolves [] |}.

Definition answers (r : Response) : network := fun _ => FetchResolves r.

Definition unreachable : network :=
  fun _ => FetchRejects {| name := "TypeError"; message := "fetch failed" |}.

Definition hello : Response :=
  {| status := 200;
     body_json :=
       JsonResolves (VObj [("text", VStr "hello"); ("confidence", VNum 0.87)]) |}.

Definition unsure : Response :=
  {| status := 200;
     body_json :=
       JsonResolves (VObj [("text", VStr "x"); ("confidence", VNum 0)]) |}.

Definition with_model : Response :=
  {| status := 200;
     body_json :=
       JsonResolves (VObj [("text", VStr "hello");
                           ("model_used", VStr "dots.ocr")]) |}.


Definition null_body : Response :=
  {| status := 200; body_json := JsonResolves VNull |}.


(** The page once [png] was dropped and its preview read. *)
Definition previewed : Page.State :=
  Page.perform (Page.reader_onload "data:image/png;base64,iVBORw0KGgo=")
    (Page.perform (Page.onDrop [png]) Page.initial).

(** The same page once the backend recognized [png]. *)
Definition recognized : Page.State :=
  Page.perform
    (Page.processOCR plain_numbers no_env (answers hello) previewed)
    previewed.

Definition big_pdf : File :=
  {| file_name := "book.pdf"; type := "application/pdf";
     size := 20 * 1024 * 1024 |}.

Definition text_form : Route.NextRequest :=
  {| Route.request_formData :=
       Route.FormDataResolves [("file", EntryString "scan.png")] |}.

Definition json_request : Route.NextRequest :=
  {| Route.request_formData :=
       Route.FormDataRejects
         {| name := "TypeError";
            message := "Content-Type was not one of multipart/form-data" |} |}.

Definition garbled : Response :=
  {| status := 200;
     body_json :=
       JsonRejects {| name := "SyntaxError";
                      message := "Unexpected token < in JSON" |} |}.

Definition bare_number : Response :=
  {| status := 200; body_json := JsonResolves (VNum 5) |}.

Definition dev_env : ProcessEnv :=
  {| BACKEND_URL := Some "";
     NEXT_PUBLIC_BACKEND_URL := None;
     NODE_ENV := Some "development" |}.

Definition staged_env : ProcessEnv :=
  {| BACKEND_URL := Some "https://ocr.example";
     NEXT_PUBLIC_BACKEND_URL := Some "https://ocr.example";
     NODE_ENV := Some "production" |}.

Definition jpg : File :=
  {| file_name := "photo.jpg"; type := "image/jpeg"; size := 4096 |}.

Definition no_text : Response :=
  {| status := 200;
     body_json := JsonResolves (VObj [("confidence", VNum 0.87)]) |}.

(** The page once the backend answered without a [text]. *)
Definition textless : Page.State :=
  Page.perform
    (Page.processOCR plain_numbers no_env (answers no_text) previewed)
    previewed.

End Samples.

(* ================================================================== *)
(** * Facts about the runtime model *)
(* ================================================================== *)

Module JSFacts.
Import JS.

Lemma own_props_defined view k x rest :
  x <> VUndefined ->
  own_props view ((k, x) :: rest) = (k, view x) :: own_props view rest.
Proof. destruct x; intros Hx; try reflexivity. now elim Hx. Qed.

Lemma truthy_defined x : truthy x = true -> x <> VUndefined.
Proof. destruct x; cbn; congruence. Qed.

Lemma js_or_defined x d : d <> VUndefined -> js_or x d <> VUndefined.
Proof.
  intros Hd. unfold js_or. destruct (truthy x) eqn:Hx; [|exact Hd].
  now apply truthy_defined.
Qed.

Lemma js_or_truthy x d : truthy x = true -> js_or x d = x.
Proof. unfold js_or. now intros ->. Qed.

Lemma js_or_falsy x d : truthy x = false -> js_or x d = d.
Proof. unfold js_or. now intros ->. Qed.

Lemma field_absent k props : lookup k props = None -> field k props = VUndefined.
Proof. unfold field. now intros ->. Qed.

Lemma field_present k props x : lookup k props = Some x -> field k props = x.
Proof. unfold field. now intros ->. Qed.

(** The object literal the proxy answers with keeps its four keys. *)
Lemma json_view_result t c l p :
  json_view (VObj [("text", js_or t (VStr ""));
                   ("confidence", js_or c VNull);
                   ("layout", js_or l VNull);
                   ("processing_time", js_or p VNull)]) =
  VObj [("text", json_view (js_or t (VStr "")));
        ("confidence", json_view (js_or c VNull));
        ("layout", json_view (js_or l VNull));
        ("processing_time", json_view (js_or p VNull))].
Proof.
  cbn [json_view].
  rewrite !own_props_defined by (apply js_or_defined; discriminate).
  reflexivity.
Qed.

(** A plain value is written and read back unchanged. *)
Lemma json_view_plain : forall v, plain v = true -> json_view v = v.
Proof.
  fix IH 1. intros [| | b | n | s | items | props] Hp;
    cbn [json_view plain] in *; try reflexivity; try discriminate.
  - apply andb_prop in Hp as [Hfinite Hzero]. rewrite Hfinite.
    now destruct (negative_zero n).
  - f_equal. revert Hp. generalize items. fix IHitems 1.
    intros [|x rest] Hp; [reflexivity|].
    cbn [forallb map] in *. apply andb_prop in Hp as [Hx Hrest].
    pose proof (IH x Hx) as Hview.
    rewrite (IHitems rest Hrest). f_equal.
    destruct x; try discriminate Hx; exact Hview.
  - f_equal. revert Hp. generalize props. fix IHprops 1.
    intros [|[k x] rest] Hp; [reflexivity|].
    cbn [forallb own_props snd] in *. apply andb_prop in Hp as [Hx Hrest].
    pose proof (IH x Hx) as Hview.
    rewrite (IHprops rest Hrest).
    destruct x; try discriminate Hx; f_equal; f_equal; exact Hview.
Qed.

End JSFacts.

(* ================================================================== *)
(** * Facts about the proxy route *)
(* ================================================================== *)

Module RouteFacts.
Import JS Route Vocabulary Samples JSFacts.
Local Open Scope N_scope.

Lemma backend_calls_app tr1 tr2 :
  backend_calls (tr1 ++ tr2)%list
  = (backend_calls tr1 ++ backend_calls tr2)%list.
Proof.
  induction tr1 as [|[c|l x] tr1 IH]; cbn; [reflexivity| |exact IH].
  now rewrite IH.
Qed.

Lemma development_match {A : Type} (env : ProcessEnv) (a b : A) :
  match NODE_ENV env with Some "development" => a | _ => b end
  = if is_development env then a else b.
Proof.
  unfold is_development. destruct (NODE_ENV env) as [s|]; [|reflexivity].
  do 11 (destruct s as [|[[] [] [] [] [] [] [] []] s]; try reflexivity).
  destruct s; reflexivity.
Qed.

(** The catch-all, for a caught [Error]. *)
Lemma catch_all number_to_string env e tr :
  (emit (ConsoleError "OCR API Error:" (ThrownError e)) ;;;
   details <-
     match NODE_ENV env with
     | Some "development" =>
         d <- String_of_thrown number_to_string (ThrownError e) ;;
         ret (VStr d)
     | _ => ret VUndefined
     end ;;
   ret (NextResponse_json
          (VObj [("error",
                  VStr match ThrownError e with
                       | ThrownError e => message e
                       | ThrownValue _ => "OCR処理でエラーが発生しました"
                       end);
                 ("details", details)])
          500))%eff tr
  = (Returned (failure number_to_string env (ThrownError e)),
     (tr ++ [ConsoleError "OCR API Error:" (ThrownError e)])%list).
Proof.
  rewrite development_match.
  unfold bind, emit, ret, NextResponse_json, failure.
  destruct (is_development env); reflexivity.
Qed.

(** [new Error(e || m)] *)
Lemma new_Error_or_run number_to_string e m (tr : list event) :
  new_Error number_to_string (js_or e (VStr m)) tr
  = (if truthy e
     then match to_string number_to_string e with
          | Some s => Returned {| name := "Error"; message := s |}
          | None => Threw (ThrownError cannot_convert)
          end
     else Returned {| name := "Error"; message := m |},
     tr).
Proof.
  unfold js_or. destruct (truthy e) eqn:He; [|reflexivity].
  destruct e; try discriminate He;
    unfold new_Error, ToString, bind, ret, throw;
    destruct (to_string number_to_string _); reflexivity.
Qed.

(** Entering the handler: its catch-all is kept aside as [Hcatch]. *)
Ltac open_POST :=
  unfold run;
  match goal with
  | |- context [Route.POST ?n ?e _ _] =>
      unfold Route.POST;
      match goal with
      | |- context [try_catch _ ?h] =>
          let handler := fresh "handler" in
          set (handler := h);
          assert (Hcatch : forall x tr0,
                     handler (ThrownError x) tr0
                     = (Returned (failure n e (ThrownError x)),
                        (tr0 ++ [ConsoleError "OCR API Error:"
                                   (ThrownError x)])%list))
            by (intros; subst handler; cbv beta; apply catch_all);
          clearbody handler
      end
  end;
  unfold try_catch, bind, formData.

Ltac enter H :=
  let fd := fresh "fd" in
  let Hfd := fresh "Hfd" in
  let Hget := fresh "Hget" in
  destruct H as (fd & Hfd & Hget);
  open_POST; rewrite Hfd; cbn [ret];
  rewrite Hget; unfold entry_size, entry_type, gt.

Ltac size_check :=
  match goal with
  | |- context [N.ltb ?a ?b] => destruct (N.ltb_spec a b); [try lia | try lia]
  end.

Ltac forward env f Hty :=
  unfold startsWith, ret; rewrite Hty; cbn [negb];
  unfold fetch, bind, emit, FormData_append, fetch_event, route_fetch_event;
  cbn [app]; fold (forwarding_call env f).

(** The step [throw new Error(errorData.error || ...)], whichever way the
    conversion of the error goes. *)
Ltac raise_error :=
  rewrite new_Error_or_run;
  match goal with
  | |- context [truthy ?e] =>
      destruct (truthy e);
      [match goal with
       | |- context [to_string ?n e] => destruct (to_string n e)
       end|]
  end;
  unfold throw.

Section Handler.
Variable number_to_string : float -> string.
Variable env : ProcessEnv.
Variable net : network.

Abbreviation POST := (POST number_to_string env net).

Lemma POST_missing request tr :
  carries request None ->
  POST request tr =
  (Returned {| response_status := 400;
               response_body :=
                 VObj [("error", VStr "ファイルが見つかりません")] |}, tr).
Proof. intros H. enter H. reflexivity. Qed.

Lemma POST_too_large request f tr :
  carries request (Some (EntryFile f)) ->
  (10 * 1024 * 1024 < size f)%N ->
  POST request tr =
  (Returned {| response_status := 400;
               response_body :=
                 VObj [("error",
                        VStr "ファイルサイズは10MB以下にしてください")] |}, tr).
Proof. intros H Hsz. enter H. size_check. reflexivity. Qed.

Lemma POST_not_image request f tr :
  carries request (Some (EntryFile f)) ->
  (size f <= 10 * 1024 * 1024)%N ->
  String.prefix "image/" (type f) = false ->
  POST request tr =
  (Returned {| response_status := 400;
               response_body :=
                 VObj [("error", VStr "画像ファイルを選択してください")] |}, tr).
Proof.
  intros H Hsz Hty. enter H. size_check.
  unfold startsWith, ret. rewrite Hty. reflexivity.
Qed.

Lemma POST_fetch_rejects request f e tr :
  carries request (Some (EntryFile f)) ->
  (size f <= 10 * 1024 * 1024)%N ->
  String.prefix "image/" (type f) = true ->
  net (forwarding_call env f) = FetchRejects e ->
  exists resp,
    POST request tr =
    (Returned resp,
     (tr ++ [Fetch (forwarding_call env f);
             ConsoleError "OCR API Error:" (ThrownError e)])%list)
    /\ response_status resp = 500
    /\ error_of resp = Some (message e).
Proof.
  intros H Hsz Hty Hnet. enter H. size_check. forward env f Hty. rewrite Hnet.
  unfold throw. rewrite Hcatch, <- app_assoc. cbn [app].
  eexists. split; [reflexivity|]. split; reflexivity.
Qed.

(** A backend answer with a 2xx status and a JSON object as its body. *)
Lemma POST_success request f r props tr :
  carries request (Some (EntryFile f)) ->
  (size f <= 10 * 1024 * 1024)%N ->
  String.prefix "image/" (type f) = true ->
  net (forwarding_call env f) = FetchResolves r ->
  ok r = true ->
  body_json r = JsonResolves (VObj props) ->
  POST request tr =
  (Returned
     {| response_status := 200;
        response_body :=
          VObj [("text", json_view (js_or (field "text" props) (VStr "")));
                ("confidence",
                 json_view (js_or (field "confidence" props) VNull));
                ("layout", json_view (js_or (field "layout" props) VNull));
                ("processing_time",
                 json_view (js_or (field "processing_time" props) VNull))] |},
   (tr ++ [Fetch (forwarding_call env f)])%list).
Proof.
  intros H Hsz Hty Hnet Hok Hbody. enter H. size_check.
  forward env f Hty. rewrite Hnet.
  unfold ret. rewrite Hok. cbn [negb].
  unfold Response_json. rewrite Hbody. unfold ret, get, ret.
  unfold NextResponse_json. now rewrite json_view_result.
Qed.

(** A literal [null] body makes [result.text] throw: the catch-all
    answers 500. *)
Lemma POST_null_body request f r tr :
  carries request (Some (EntryFile f)) ->
  (size f <= 10 * 1024 * 1024)%N ->
  String.prefix "image/" (type f) = true ->
  net (forwarding_call env f) = FetchResolves r ->
  ok r = true ->
  body_json r = JsonResolves VNull ->
  exists resp tr',
    POST request tr = (Returned resp, tr')
    /\ response_status resp = 500
    /\ error_of resp
       = Some "Cannot read properties of null (reading 'text')".
Proof.
  intros H Hsz Hty Hnet Hok Hbody. enter H. size_check.
  forward env f Hty. rewrite Hnet.
  unfold ret. rewrite Hok. cbn [negb].
  unfold Response_json. rewrite Hbody. unfold ret, get, throw.
  rewrite Hcatch.
  eexists. eexists. split; [reflexivity|]. split; reflexivity.
Qed.


(** The handler answers every request; what it answers is a 400, a 500,
    or a 200 carrying exactly the four result keys. *)
Lemma POST_answers request tr :
  exists resp tr',
    POST request tr = (Returned resp, tr')
    /\ (response_status resp = 400
        \/ response_status resp = 500
        \/ exists t c l p,
             resp = {| response_status := 200;
                       response_body :=
                         VObj [("text", t); ("confidence", c);
                               ("layout", l); ("processing_time", p)] |}).
Proof.
  open_POST.
  assert (Hfail : forall x tr0,
             exists resp tr',
               handler (ThrownError x) tr0 = (Returned resp, tr')
               /\ (response_status resp = 400
                   \/ response_status resp = 500
                   \/ exists t c l p,
                        resp = {| response_status := 200;
                                  response_body :=
                                    VObj [("text", t); ("confidence", c);
                                          ("layout", l);
                                          ("processing_time", p)] |})).
  { intros x tr0. rewrite Hcatch. eexists. eexists.
    split; [reflexivity|]. right. left. reflexivity. }
  destruct (request_formData request) as [e|fd]; unfold throw, ret;
    [apply Hfail|].
  destruct (FormData_get fd "file") as [[f|[|a s]]|].
  - unfold entry_size, entry_type, gt.
    destruct (10 * 1024 * 1024 <? size f).
    { eexists. eexists. split; [reflexivity|]. left. reflexivity. }
    unfold startsWith, ret.
    destruct (String.prefix "image/" (type f)); cbn [negb].
    2:{ eexists. eexists. split; [reflexivity|]. left. reflexivity. }
    unfold fetch, bind, emit.
    destruct (net _) as [e|r]; unfold throw, ret; [apply Hfail|].
    destruct (ok r); cbn [negb]; unfold Response_json.
    + destruct (body_json r) as [e|v]; unfold throw, ret; [apply Hfail|].
      destruct v; unfold get, throw, ret; try apply Hfail;
        (eexists; eexists; split; [reflexivity|]; right; right;
         unfold NextResponse_json; rewrite json_view_result;
         eexists; eexists; eexists; eexists; reflexivity).
    + destruct (body_json r) as [e|v]; unfold throw, ret, error_body;
        [cbn [get]; unfold ret; raise_error; apply Hfail|].
      destruct v; unfold get, throw, ret; try apply Hfail;
        raise_error; apply Hfail.
  - eexists. eexists. split; [reflexivity|]. left. reflexivity.
  - unfold entry_size, entry_type, gt, startsWith, throw. apply Hfail.
  - eexists. eexists. split; [reflexivity|]. left. reflexivity.
Qed.

(** Outside the three checks: a body that is no form, and a [file]
    field holding text, end in the catch-all 500 without a backend
    call. *)
Lemma POST_form_rejects request e tr :
  request_formData request = FormDataRejects e ->
  exists resp,
    POST request tr
    = (Returned resp,
       (tr ++ [ConsoleError "OCR API Error:" (ThrownError e)])%list)
    /\ response_status resp = 500
    /\ error_of resp = Some (message e).
Proof.
  intros Hform. open_POST. rewrite Hform.
  unfold throw. rewrite Hcatch.
  eexists. split; [reflexivity|]. split; reflexivity.
Qed.

Lemma POST_text_field request a s tr :
  carries request (Some (EntryString (String a s))) ->
  exists resp tr',
    POST request tr = (Returned resp, tr')
    /\ backend_calls tr' = backend_calls tr
    /\ response_status resp = 500.
Proof.
  intros H. enter H. unfold startsWith, throw. rewrite Hcatch.
  eexists. eexists. split; [reflexivity|].
  split; [|reflexivity].
  rewrite backend_calls_app. cbn. now rewrite app_nil_r.
Qed.

(** A field the backend sent with a truthy value is handed on. *)
Lemma POST_keeps_truthy_fields request f r props k v :
  carries request (Some (EntryFile f)) ->
  (size f <= 10 * 1024 * 1024)%N ->
  String.prefix "image/" (type f) = true ->
  net (forwarding_call env f) = FetchResolves r ->
  ok r = true ->
  body_json r = JsonResolves (VObj props) ->
  In k ["text"; "confidence"; "layout"; "processing_time"] ->
  lookup k props = Some v ->
  truthy v = true ->
  exists resp,
    fst (run (POST request)) = Returned resp
    /\ match response_body resp with
       | VObj out => lookup k out = Some (json_view v)
       | _ => False
       end.
Proof.
  intros H Hsz Hty Hnet Hok Hbody Hk Hv Htruthy.
  unfold run. rewrite (POST_success request f r props []) by assumption.
  eexists. split; [reflexivity|]. cbn [fst response_body].
  cbn in Hk.
  destruct Hk as [<-|[<-|[<-|[<-|[]]]]];
    rewrite (field_present _ _ _ Hv), (js_or_truthy _ _ Htruthy);
    reflexivity.
Qed.

(** An accepted file is forwarded once, whatever the backend does. *)
Lemma POST_forwards_once request f tr :
  carries request (Some (EntryFile f)) ->
  (size f <= 10 * 1024 * 1024)%N ->
  String.prefix "image/" (type f) = true ->
  exists resp tr',
    POST request tr = (Returned resp, tr')
    /\ backend_calls tr'
       = (backend_calls tr ++ [forwarding_call env f])%list.
Proof.
  intros H Hsz Hty. enter H. size_check. forward env f Hty.
  assert (Hfail : forall x,
             exists resp tr',
               handler (ThrownError x)
                 (tr ++ [Fetch (forwarding_call env f)])%list
               = (Returned resp, tr')
               /\ backend_calls tr'
                  = (backend_calls tr ++ [forwarding_call env f])%list).
  { intros x. rewrite Hcatch. eexists. eexists. split; [reflexivity|].
    rewrite !backend_calls_app. cbn. now rewrite app_nil_r. }
  destruct (net _) as [e|r]; unfold throw, ret; [apply Hfail|].
  destruct (ok r); cbn [negb]; unfold Response_json.
  - destruct (body_json r) as [e|v]; unfold throw, ret; [apply Hfail|].
    destruct v; unfold get, throw, ret; try apply Hfail;
      (eexists; eexists; split; [reflexivity|];
       rewrite backend_calls_app; reflexivity).
  - destruct (body_json r) as [e|v]; unfold throw, ret, error_body;
      [cbn [get]; unfold ret; raise_error; apply Hfail|].
    destruct v; unfold get, throw, ret; try apply Hfail;
      raise_error; apply Hfail.
Qed.

(** C1. A backend answer with a 2xx status and a JSON object as its body
    is answered with status 200 and an object with exactly the keys
    [text], [confidence], [layout], [processing_time], in which every
    optional key the backend left out is [null]; for the backend body
    [{ "text": "hello", "confidence": 0.87 }] the answer is
    [{ text: "hello", confidence: 0.87, layout: null,
       processing_time: null }]. *)
Theorem POST_normalizes_success request f r props :
  carries request (Some (EntryFile f)) ->
  (size f <= 10 * 1024 * 1024)%N ->
  String.prefix "image/" (type f) = true ->
  net (forwarding_call env f) = FetchResolves r ->
  ok r = true ->
  body_json r = JsonResolves (VObj props) ->
  exists text confidence layout processing_time,
    fst (run (POST request))
    = Returned {| response_status := 200;
                  response_body :=
                    VObj [("text", text);
                          ("confidence", confidence);
                          ("layout", layout);
                          ("processing_time", processing_time)] |}
    /\ (lookup "confidence" props = None -> confidence = VNull)
    /\ (lookup "layout" props = None -> layout = VNull)
    /\ (lookup "processing_time" props = None -> processing_time = VNull)
    /\ (props = [("text", VStr "hello"); ("confidence", VNum 0.87)] ->
        text = VStr "hello" /\ confidence = VNum 0.87
        /\ layout = VNull /\ processing_time = VNull).
Proof.
  intros H Hsz Hty Hnet Hok Hbody.
  unfold run. rewrite (POST_success request f r props []) by assumption.
  do 4 eexists. split; [reflexivity|].
  split; [|split; [|split]];
    try (intros Habsent; now rewrite (field_absent _ _ Habsent)).
  intros ->. repeat split.
Qed.

(** C3. A file of exactly 10 MiB passes the size check: with an image
    type it is forwarded (one backend call), with another type it is the
    type check that turns it down. A file of 10 MiB + 1 byte is answered
    400 with an error object, and nothing is sent to the backend. *)
Theorem POST_size_boundary request f :
  carries request (Some (EntryFile f)) ->
  (size f = 10 * 1024 * 1024 ->
     (String.prefix "image/" (type f) = true ->
      backend_calls (snd (run (POST request))) = [forwarding_call env f])
     /\ (String.prefix "image/" (type f) = false ->
         run (POST request)
         = (Returned {| response_status := 400;
                        response_body :=
                          VObj [("error",
                                 VStr "画像ファイルを選択してください")] |},
            [])))
  /\ (size f = 10 * 1024 * 1024 + 1 ->
      run (POST request)
      = (Returned {| response_status := 400;
                     response_body :=
                       VObj [("error",
                              VStr "ファイルサイズは10MB以下にしてください")] |},
         [])).
Proof.
  intros H. split; [intros Hsz; split; intros Hty|intros Hsz].
  - destruct (POST_forwards_once request f [] H) as (resp & tr' & Hrun & Hcalls);
      [lia|exact Hty|].
    unfold run. now rewrite Hrun.
  - apply POST_not_image with (f := f); [exact H|lia|exact Hty].
  - apply POST_too_large with (f := f); [exact H|lia].
Qed.

(** C4. When the file field is absent, or the file is larger than 10 MiB,
    or its type does not start with [image/], the answer is status 400
    with an error object holding a non-empty message, and the run has no
    effect at all, in particular no backend call. A file passing the
    three checks is forwarded by exactly one backend call. *)
Theorem POST_validation request file :
  carries request file ->
  (invalid file ->
     exists msg,
       run (POST request)
       = (Returned {| response_status := 400;
                      response_body := VObj [("error", VStr msg)] |}, [])
       /\ msg <> "")
  /\ (forall f,
        file = Some (EntryFile f) ->
        size f <= 10 * 1024 * 1024 ->
        String.prefix "image/" (type f) = true ->
        backend_calls (snd (run (POST request))) = [forwarding_call env f]).
Proof.
  intros H. split.
  - intros [->|(f & -> & Hbad)].
    + eexists. split; [now apply POST_missing|discriminate].
    + destruct (N.ltb_spec (10 * 1024 * 1024) (size f)) as [Hbig|Hfits].
      * eexists. split; [now apply POST_too_large with (f := f)|discriminate].
      * destruct Hbad as [Hbig|Hty]; [lia|].
        eexists.
        split; [now apply POST_not_image with (f := f)|discriminate].
  - intros f -> Hsz Hty.
    destruct (POST_forwards_once request f [] H Hsz Hty)
      as (resp & tr' & Hrun & Hcalls).
    unfold run. now rewrite Hrun.
Qed.


(** C9. Whatever the request and the backend, an answer with status 200
    has exactly the keys [text], [confidence], [layout],
    [processing_time]: it never has a [model_used] key. *)
Theorem POST_drops_model_used request resp tr props :
  run (POST request) = (Returned resp, tr) ->
  response_status resp = 200 ->
  response_body resp = VObj props ->
  keys props = ["text"; "confidence"; "layout"; "processing_time"]
  /\ ~ In "model_used" (keys props)
  /\ lookup "model_used" props = None.
Proof.
  intros Hrun Hstatus Hbody.
  destruct (POST_answers request []) as (resp' & tr' & Hrun' & Hcases).
  unfold run in Hrun. rewrite Hrun' in Hrun.
  injection Hrun as -> ->.
  destruct Hcases as [H400|[H500|(t & c & l & p & ->)]];
    [rewrite H400 in Hstatus; discriminate
    |rewrite H500 in Hstatus; discriminate|].
  cbn in Hbody. injection Hbody as <-.
  split; [reflexivity|]. split; [|reflexivity].
  cbn. intros [E|[E|[E|[E|[]]]]]; discriminate E.
Qed.

End Handler.

(** C2, at the backend body [{ "text": "x", "confidence": 0 }]: the
    confidence [0] sent by the backend comes back as [null]. *)
Theorem POST_zero_confidence_becomes_null number_to_string env :
  fst (run (POST number_to_string env (answers unsure) (upload png)))
  = Returned {| response_status := 200;
                response_body :=
                  VObj [("text", VStr "x");
                        ("confidence", VNull);
                        ("layout", VNull);
                        ("processing_time", VNull)] |}.
Proof. reflexivity. Qed.

Lemma POST_normalizes_success_witness :
  exists text confidence layout processing_time,
    fst (run (POST plain_numbers no_env (answers hello) (upload png)))
    = Returned {| response_status := 200;
                  response_body :=
                    VObj [("text", text);
                          ("confidence", confidence);
                          ("layout", layout);
                          ("processing_time", processing_time)] |}
    /\ (lookup "confidence"
          [("text", VStr "hello"); ("confidence", VNum 0.87)] = None ->
        confidence = VNull)
    /\ (lookup "layout"
          [("text", VStr "hello"); ("confidence", VNum 0.87)] = None ->
        layout = VNull)
    /\ (lookup "processing_time"
          [("text", VStr "hello"); ("confidence", VNum 0.87)] = None ->
        processing_time = VNull)
    /\ ([("text", VStr "hello"); ("confidence", VNum 0.87)]
        = [("text", VStr "hello"); ("confidence", VNum 0.87)] ->
        text = VStr "hello" /\ confidence = VNum 0.87
        /\ layout = VNull /\ processing_time = VNull).
Proof.
  apply (POST_normalizes_success plain_numbers no_env (answers hello)
           (upload png) png hello).
  - eexists. split; reflexivity.
  - vm_compute. discriminate.
  - reflexivity.
  - reflexivity.
  - reflexivity.
  - reflexivity.
Defined.

Lemma POST_size_boundary_witness :
  backend_calls
    (snd (run (POST plain_numbers no_env (answers hello) (upload full_png))))
  = [forwarding_call no_env full_png]
  /\ run (POST plain_numbers no_env (answers hello) (upload big_png))
     = (Returned {| response_status := 400;
                    response_body :=
                      VObj [("error",
                             VStr "ファイルサイズは10MB以下にしてください")] |},
        []).
Proof.
  split.
  - apply (POST_size_boundary plain_numbers no_env (answers hello)
             (upload full_png) full_png).
    + eexists. split; reflexivity.
    + reflexivity.
    + reflexivity.
  - apply (POST_size_boundary plain_numbers no_env (answers hello)
             (upload big_png) big_png).
    + eexists. split; reflexivity.
    + reflexivity.
Defined.

Lemma POST_validation_witness :
  (exists msg,
     run (POST plain_numbers no_env (answers hello) (upload pdf))
     = (Returned {| response_status := 400;
                    response_body := VObj [("error", VStr msg)] |}, [])
     /\ msg <> "")
  /\ backend_calls
       (snd (run (POST plain_numbers no_env (answers hello) (upload png))))
     = [forwarding_call no_env png].
Proof.
  split.
  - apply (POST_validation plain_numbers no_env (answers hello)
             (upload pdf) (Some (EntryFile pdf))).
    + eexists. split; reflexivity.
    + right. exists pdf. split; [reflexivity|]. right. reflexivity.
  - apply (POST_validation plain_numbers no_env (answers hello)
             (upload png) (Some (EntryFile png))).
    + eexists. split; reflexivity.
    + reflexivity.
    + vm_compute. discriminate.
    + reflexivity.
Defined.



Lemma POST_drops_model_used_witness :
  keys [("text", VStr "hello"); ("confidence", VNull); ("layout", VNull);
        ("processing_time", VNull)]
  = ["text"; "confidence"; "layout"; "processing_time"]
  /\ ~ In "model_used"
       (keys [("text", VStr "hello"); ("confidence", VNull);
              ("layout", VNull); ("processing_time", VNull)])
  /\ lookup "model_used"
       [("text", VStr "hello"); ("confidence", VNull); ("layout", VNull);
        ("processing_time", VNull)] = None.
Proof.
  apply (POST_drops_model_used plain_numbers no_env (answers with_model)
           (upload png)
           {| response_status := 200;
              response_body :=
                VObj [("text", VStr "hello"); ("confidence", VNull);
                      ("layout", VNull); ("processing_time", VNull)] |}
           [Fetch (forwarding_call no_env png)]).
  - reflexivity.
  - reflexivity.
  - reflexivity.
Defined.

(* ------------------------------------------------------------------ *)
(** ** The courses of a run *)

Section Behaviour.
Variable number_to_string : float -> string.
Variable env : ProcessEnv.
Variable net : network.

Abbreviation POST := (POST number_to_string env net).
Abbreviation failure := (failure number_to_string env).
Abbreviation course := (course number_to_string env).

(** Every run takes one of the four courses. *)
Lemma POST_course request tr :
  exists resp effects,
    POST request tr = (Returned resp, (tr ++ effects)%list)
    /\ course request effects resp.
Proof.
  open_POST.
  assert (Hrefused : forall m,
             m <> "" ->
             exists resp effects,
               (Returned {| response_status := 400;
                            response_body := VObj [("error", VStr m)] |}, tr)
               = (Returned resp, (tr ++ effects)%list)
               /\ course request effects resp).
  { intros m Hm. eexists. exists []. rewrite app_nil_r.
    split; [reflexivity|]. now constructor. }
  destruct (request_formData request) as [e|fd] eqn:Hform; unfold throw, ret.
  { rewrite Hcatch. eexists. eexists. split; [reflexivity|]. constructor. }
  destruct (FormData_get fd "file") as [[f|[|a s]]|] eqn:Hget.
  - unfold entry_size, entry_type, gt.
    destruct (N.ltb_spec (10 * 1024 * 1024) (size f)) as [Hbig|Hfits];
      [apply Hrefused; discriminate|].
    unfold startsWith, ret.
    destruct (String.prefix "image/" (type f)) eqn:Hty; cbn [negb];
      [|apply Hrefused; discriminate].
    assert (Hacc : accepted request f).
    { split; [|split; assumption]. exists fd. split; assumption. }
    unfold fetch, bind, emit, FormData_append, fetch_event, route_fetch_event.
    cbn [app]. fold (forwarding_call env f).
    assert (Hfail : forall x,
               exists resp effects,
                 handler (ThrownError x)
                   (tr ++ [Fetch (forwarding_call env f)])%list
                 = (Returned resp, (tr ++ effects)%list)
                 /\ course request effects resp).
    { intros x. rewrite Hcatch, <- app_assoc. eexists. eexists.
      split; [reflexivity|]. now constructor. }
    destruct (net _) as [e|r]; unfold throw, ret; [apply Hfail|].
    destruct (ok r); cbn [negb]; unfold Response_json.
    + destruct (body_json r) as [e|v]; unfold throw, ret; [apply Hfail|].
      destruct v; unfold get, throw, ret; try apply Hfail;
        (eexists; eexists; split;
         [unfold NextResponse_json; rewrite json_view_result; reflexivity
         |now constructor]).
    + destruct (body_json r) as [e|v]; unfold throw, ret, error_body;
        [cbn [get]; unfold ret; raise_error; apply Hfail|].
      destruct v; unfold get, throw, ret; try apply Hfail;
        raise_error; apply Hfail.
  - apply Hrefused. discriminate.
  - unfold entry_size, entry_type, gt, startsWith, throw.
    rewrite Hcatch. eexists. eexists. split; [reflexivity|]. constructor.
  - apply Hrefused. discriminate.
Qed.

Lemma POST_run_course request resp tr :
  run (POST request) = (Returned resp, tr) -> course request tr resp.
Proof.
  intros Hrun.
  destruct (POST_course request []) as (resp' & effects & Hrun' & Hcourse).
  unfold run in Hrun. rewrite Hrun' in Hrun. cbn [app] in Hrun.
  now injection Hrun as <- <-.
Qed.

(** X1. The handler never throws: every request gets a response, and its
    status is 200, 400 or 500. *)
Theorem POST_always_answers request :
  exists resp tr,
    run (POST request) = (Returned resp, tr)
    /\ (response_status resp = 200
        \/ response_status resp = 400
        \/ response_status resp = 500).
Proof.
  destruct (POST_course request []) as (resp & effects & Hrun & Hcourse).
  exists resp, effects. split; [exact Hrun|].
  destruct Hcourse; cbn; auto.
Qed.

(** X2. The handler calls the backend at most once, and only with a file
    that passed the three checks. *)
Theorem POST_sends_only_accepted_files request :
  backend_calls (snd (run (POST request))) = []
  \/ exists f,
       accepted request f
       /\ backend_calls (snd (run (POST request))) = [forwarding_call env f].
Proof.
  destruct (POST_course request []) as (resp & effects & Hrun & Hcourse).
  unfold run. rewrite Hrun. cbn [app snd].
  destruct Hcourse; cbn [backend_calls]; eauto.
Qed.


(** X3. Every answer other than a 200 carries an [error] string; on a 400
    it is not empty. *)
Theorem POST_failures_name_an_error request resp tr :
  run (POST request) = (Returned resp, tr) ->
  response_status resp <> 200 ->
  exists m,
    error_of resp = Some m
    /\ (response_status resp = 400 -> m <> "").
Proof.
  intros Hrun Hstatus. apply POST_run_course in Hrun.
  destruct Hrun as [m Hm|x|f x Hacc|f t c l p Hacc].
  - exists m. split; [reflexivity|]. intros _. exact Hm.
  - exists (message x). split; [reflexivity|]. discriminate.
  - exists (message x). split; [reflexivity|]. discriminate.
  - now elim Hstatus.
Qed.

(** X4. The [details] key is in the answer exactly when the answer is a
    500 and [NODE_ENV] is [development]. *)
Theorem POST_details_only_in_development request resp tr props :
  run (POST request) = (Returned resp, tr) ->
  response_body resp = VObj props ->
  (In "details" (keys props)
   <-> response_status resp = 500 /\ is_development env = true).
Proof.
  intros Hrun Hbody. apply POST_run_course in Hrun.
  destruct Hrun as [m Hm|x|f x Hacc|f t c l p Hacc];
    unfold Vocabulary.failure in Hbody; cbn [response_body] in Hbody;
    injection Hbody as <-; cbn [response_status Vocabulary.failure];
    try destruct (is_development env); cbn; split;
    try (intros [E|[E|[E|[E|[]]]]]; discriminate E);
    try (intros [E|[E|[]]]; discriminate E);
    try (intros [E|[]]; discriminate E);
    try (intros [E _]; discriminate E);
    try (intros [_ E]; discriminate E);
    auto.
Qed.

(** X5. The effects of a run follow the status: a 400 has none; a 200 has
    the one backend call for an accepted file; a 500 writes one console
    error, for the error whose message the answer reports; no other
    answer writes to the console. *)
Theorem POST_effects_by_status request resp tr :
  run (POST request) = (Returned resp, tr) ->
  (response_status resp = 400 -> tr = [])
  /\ (response_status resp = 200 ->
      exists f, accepted request f /\ tr = [Fetch (forwarding_call env f)])
  /\ (response_status resp = 500 ->
      exists x, console_errors tr = [x] /\ error_of resp = Some (reported x))
  /\ (response_status resp <> 500 -> console_errors tr = []).
Proof.
  intros Hrun. apply POST_run_course in Hrun.
  destruct Hrun as [m Hm|x|f x Hacc|f t c l p Hacc];
    cbn [response_status Vocabulary.failure console_errors];
    (split; [|split; [|split]]);
    try discriminate; try reflexivity; try (intros E; now elim E);
    intros _; eauto.
Qed.

Ltac pass H :=
  let fd := fresh "fd" in
  let Hfd := fresh "Hfd" in
  let Hget := fresh "Hget" in
  let Hsz := fresh "Hsz" in
  let Hty := fresh "Hty" in
  destruct H as ((fd & Hfd & Hget) & Hsz & Hty);
  rewrite Hfd; cbn [ret]; rewrite Hget; unfold entry_size, entry_type, gt;
  size_check;
  unfold startsWith, ret; rewrite Hty; cbn [negb];
  unfold fetch, bind, emit, FormData_append, fetch_event, route_fetch_event;
  cbn [app].

(** X6. When the backend call itself fails, the accepted file was sent
    once and the answer is the catch-all 500 with the failure's message. *)
Theorem POST_network_failure request f e :
  accepted request f ->
  net (forwarding_call env f) = FetchRejects e ->
  run (POST request)
  = (Returned (failure (ThrownError e)),
     [Fetch (forwarding_call env f);
      ConsoleError "OCR API Error:" (ThrownError e)]).
Proof.
  intros H Hnet. open_POST. pass H. fold (forwarding_call env f).
  rewrite Hnet. unfold throw. now rewrite Hcatch.
Qed.

(** X7. A request whose body cannot be read as a form is answered by the
    catch-all 500 with that failure's message, without a backend call. *)
Theorem POST_unparsed_body request e :
  request_formData request = FormDataRejects e ->
  run (POST request)
  = (Returned (failure (ThrownError e)),
     [ConsoleError "OCR API Error:" (ThrownError e)]).
Proof.
  intros Hform. open_POST. rewrite Hform. unfold throw. now rewrite Hcatch.
Qed.

(** X8. A [file] field holding text instead of a file: the empty text is
    answered like a missing file (400); any other text makes the type
    check throw and is answered by the catch-all 500. Neither is
    forwarded. *)
Theorem POST_text_valued_field request s :
  carries request (Some (EntryString s)) ->
  (s = "" ->
   run (POST request)
   = (Returned {| response_status := 400;
                  response_body :=
                    VObj [("error", VStr "ファイルが見つかりません")] |}, []))
  /\ (s <> "" ->
      run (POST request)
      = (Returned
           (failure (ThrownError (cannot_read "undefined" "startsWith"))),
         [ConsoleError "OCR API Error:"
            (ThrownError (cannot_read "undefined" "startsWith"))])).
Proof.
  intros (fd & Hfd & Hget). split; intros Hs; open_POST;
    rewrite Hfd; cbn [ret]; rewrite Hget.
  - subst s. reflexivity.
  - destruct s as [|a s]; [now elim Hs|].
    unfold entry_size, entry_type, gt, startsWith, throw.
    now rewrite Hcatch.
Qed.

(** X9. A 2xx backend answer whose JSON body is [null] is not normalized:
    reading [text] throws and the answer is the catch-all 500. *)
Theorem POST_null_success_body request f r :
  accepted request f ->
  net (forwarding_call env f) = FetchResolves r ->
  ok r = true ->
  body_json r = JsonResolves VNull ->
  run (POST request)
  = (Returned (failure (ThrownError (cannot_read "null" "text"))),
     [Fetch (forwarding_call env f);
      ConsoleError "OCR API Error:"
        (ThrownError (cannot_read "null" "text"))]).
Proof.
  intros H Hnet Hok Hbody. open_POST. pass H. fold (forwarding_call env f).
  rewrite Hnet. unfold ret. rewrite Hok. cbn [negb].
  unfold Response_json. rewrite Hbody. unfold ret, get, throw.
  now rewrite Hcatch.
Qed.

(** X10. A 2xx backend answer whose body is not JSON is answered by the
    catch-all 500 with the parse failure's message. *)
Theorem POST_unreadable_success_body request f r e :
  accepted request f ->
  net (forwarding_call env f) = FetchResolves r ->
  ok r = true ->
  body_json r = JsonRejects e ->
  run (POST request)
  = (Returned (failure (ThrownError e)),
     [Fetch (forwarding_call env f);
      ConsoleError "OCR API Error:" (ThrownError e)]).
Proof.
  intros H Hnet Hok Hbody. open_POST. pass H. fold (forwarding_call env f).
  rewrite Hnet. unfold ret. rewrite Hok. cbn [negb].
  unfold Response_json. rewrite Hbody. unfold throw.
  now rewrite Hcatch.
Qed.

(** X11. A 2xx backend answer whose JSON body is a boolean, a number, a
    string or an array has none of the result's properties: the answer
    is 200 with an empty text and the three optional keys [null]. *)
Theorem POST_body_without_properties request f r v :
  accepted request f ->
  net (forwarding_call env f) = FetchResolves r ->
  ok r = true ->
  body_json r = JsonResolves v ->
  match v with
  | VBool _ | VNum _ | VStr _ | VArr _ => True
  | _ => False
  end ->
  run (POST request)
  = (Returned {| response_status := 200;
                 response_body :=
                   VObj [("text", VStr ""); ("confidence", VNull);
                         ("layout", VNull); ("processing_time", VNull)] |},
     [Fetch (forwarding_call env f)]).
Proof.
  intros H Hnet Hok Hbody Hv. open_POST. pass H.
  fold (forwarding_call env f).
  rewrite Hnet. unfold ret. rewrite Hok. cbn [negb].
  unfold Response_json. rewrite Hbody.
  destruct v; try contradiction; reflexivity.
Qed.

(** X12. Defaulting looks at truthiness, not at presence: a [text] that
    is missing or falsy is answered as the empty string, and an optional
    field that is missing or falsy ([0], the empty string, [false],
    [null]) as [null]. *)
Theorem POST_replaces_falsy_fields request f r props :
  accepted request f ->
  net (forwarding_call env f) = FetchResolves r ->
  ok r = true ->
  body_json r = JsonResolves (VObj props) ->
  exists out,
    fst (run (POST request))
    = Returned {| response_status := 200; response_body := VObj out |}
    /\ (truthy (field "text" props) = false ->
        lookup "text" out = Some (VStr ""))
    /\ (forall k,
          In k ["confidence"; "layout"; "processing_time"] ->
          truthy (field k props) = false ->
          lookup k out = Some VNull).
Proof.
  intros (H & Hsz & Hty) Hnet Hok Hbody.
  unfold run. rewrite (POST_success _ _ _ request f r props []) by assumption.
  eexists. split; [reflexivity|]. split.
  - intros Hfalsy. now rewrite (js_or_falsy _ _ Hfalsy).
  - intros k Hk Hfalsy. cbn in Hk.
    destruct Hk as [<-|[<-|[<-|[]]]];
      now rewrite (js_or_falsy _ _ Hfalsy).
Qed.

(** X13. A field the backend sent with a truthy value is in the answer
    with exactly that value, when the value is one that serialization
    writes back as it is: made of strings, booleans, [null], arrays,
    objects and finite numbers other than [-0] (which is written [0]). *)
Theorem POST_hands_on_truthy_fields request f r props k v :
  accepted request f ->
  net (forwarding_call env f) = FetchResolves r ->
  ok r = true ->
  body_json r = JsonResolves (VObj props) ->
  In k ["text"; "confidence"; "layout"; "processing_time"] ->
  lookup k props = Some v ->
  truthy v = true ->
  plain v = true ->
  exists out,
    fst (run (POST request))
    = Returned {| response_status := 200; response_body := VObj out |}
    /\ lookup k out = Some v.
Proof.
  intros (H & Hsz & Hty) Hnet Hok Hbody Hk Hv Htruthy Hplain.
  unfold run. rewrite (POST_success _ _ _ request f r props []) by assumption.
  eexists. split; [reflexivity|]. cbn in Hk.
  destruct Hk as [<-|[<-|[<-|[<-|[]]]]];
    rewrite (field_present _ _ _ Hv), (js_or_truthy _ _ Htruthy),
      (json_view_plain _ Hplain);
    reflexivity.
Qed.

(** X14. The size check comes before the type check: a file over 10 MiB is
    answered with the size message whatever its type, and nothing is
    forwarded. *)
Theorem POST_checks_size_before_type request f :
  carries request (Some (EntryFile f)) ->
  (10 * 1024 * 1024 < size f) ->
  run (POST request)
  = (Returned {| response_status := 400;
                 response_body :=
                   VObj [("error",
                          VStr "ファイルサイズは10MB以下にしてください")] |},
     []).
Proof. intros H Hbig. now apply POST_too_large with (f := f). Qed.

(** X15. The forwarding call is a POST whose form has the single field
    [file] holding the uploaded file; its address is [BACKEND_URL]
    followed by the OCR path, and the local default when [BACKEND_URL]
    is unset or empty. *)
Theorem POST_backend_address request f :
  accepted request f ->
  exists c,
    backend_calls (snd (run (POST request))) = [c]
    /\ method (init c) = "POST"
    /\ body (init c) = [("file", EntryFile f)]
    /\ (BACKEND_URL env = None \/ BACKEND_URL env = Some "" ->
        url c = "http://localhost:8000/api/v1/ocr/process")
    /\ (forall u, BACKEND_URL env = Some u -> u <> "" ->
        url c = (u ++ "/api/v1/ocr/process")%string).
Proof.
  intros (H & Hsz & Hty).
  destruct (POST_forwards_once number_to_string env net request f [] H Hsz Hty)
    as (resp & tr' & Hrun & Hcalls).
  exists (forwarding_call env f). unfold run. rewrite Hrun.
  split; [exact Hcalls|]. split; [reflexivity|]. split; [reflexivity|].
  unfold forwarding_call, env_or. cbn [url]. split.
  - intros [->| ->]; reflexivity.
  - intros u -> Hu. destruct (String.eqb_spec u ""); [contradiction|reflexivity].
Qed.

End Behaviour.

Ltac sample_accepted :=
  split; [eexists; split; reflexivity
         |split; [vm_compute; discriminate|reflexivity]].

Lemma POST_failures_name_an_error_witness :
  exists m,
    error_of {| response_status := 400;
                response_body :=
                  VObj [("error", VStr "画像ファイルを選択してください")] |}
    = Some m
    /\ (response_status
          {| response_status := 400;
             response_body :=
               VObj [("error", VStr "画像ファイルを選択してください")] |}
        = 400 -> m <> "").
Proof.
  apply (POST_failures_name_an_error plain_numbers no_env (answers hello)
           (upload pdf) _ []).
  - reflexivity.
  - discriminate.
Defined.

Lemma POST_details_only_in_development_witness :
  In "details"
    (keys [("error", VStr "fetch failed");
           ("details", VStr "TypeError: fetch failed")])
  <-> response_status
        {| response_status := 500;
           response_body :=
             VObj [("error", VStr "fetch failed");
                   ("details", VStr "TypeError: fetch failed")] |} = 500
      /\ is_development dev_env = true.
Proof.
  eapply (POST_details_only_in_development plain_numbers dev_env unreachable
            (upload png)).
  - reflexivity.
  - reflexivity.
Defined.

Lemma POST_effects_by_status_witness :
  exists f,
    accepted (upload png) f /\
    [Fetch (forwarding_call no_env png)] = [Fetch (forwarding_call no_env f)].
Proof.
  destruct (POST_effects_by_status plain_numbers no_env (answers hello)
              (upload png)
              {| response_status := 200;
                 response_body :=
                   VObj [("text", VStr "hello"); ("confidence", VNum 0.87);
                         ("layout", VNull); ("processing_time", VNull)] |}
              [Fetch (forwarding_call no_env png)])
    as (_ & H200 & _ & _).
  - reflexivity.
  - apply H200. reflexivity.
Defined.

Lemma POST_network_failure_witness :
  run (POST plain_numbers no_env unreachable (upload png))
  = (Returned
       (failure plain_numbers no_env
          (ThrownError {| name := "TypeError"; message := "fetch failed" |})),
     [Fetch (forwarding_call no_env png);
      ConsoleError "OCR API Error:"
        (ThrownError {| name := "TypeError"; message := "fetch failed" |})]).
Proof.
  apply (POST_network_failure plain_numbers no_env unreachable (upload png)
           png).
  - sample_accepted.
  - reflexivity.
Defined.

Lemma POST_unparsed_body_witness :
  run (POST plain_numbers no_env (answers hello) json_request)
  = (Returned
       (failure plain_numbers no_env
          (ThrownError
             {| name := "TypeError";
                message :=
                  "Content-Type was not one of multipart/form-data" |})),
     [ConsoleError "OCR API Error:"
        (ThrownError
           {| name := "TypeError";
              message :=
                "Content-Type was not one of multipart/form-data" |})]).
Proof.
  apply (POST_unparsed_body plain_numbers no_env (answers hello) json_request).
  reflexivity.
Defined.

Lemma POST_text_valued_field_witness :
  run (POST plain_numbers no_env (answers hello) text_form)
  = (Returned
       (failure plain_numbers no_env
          (ThrownError (cannot_read "undefined" "startsWith"))),
     [ConsoleError "OCR API Error:"
        (ThrownError (cannot_read "undefined" "startsWith"))]).
Proof.
  apply (POST_text_valued_field plain_numbers no_env (answers hello)
           text_form "scan.png").
  - eexists. split; reflexivity.
  - discriminate.
Defined.

Lemma POST_null_success_body_witness :
  run (POST plain_numbers no_env (answers null_body) (upload png))
  = (Returned
       (failure plain_numbers no_env
          (ThrownError (cannot_read "null" "text"))),
     [Fetch (forwarding_call no_env png);
      ConsoleError "OCR API Error:"
        (ThrownError (cannot_read "null" "text"))]).
Proof.
  apply (POST_null_success_body plain_numbers no_env (answers null_body)
           (upload png) png null_body).
  - sample_accepted.
  - reflexivity.
  - reflexivity.
  - reflexivity.
Defined.

Lemma POST_unreadable_success_body_witness :
  run (POST plain_numbers no_env (answers garbled) (upload png))
  = (Returned
       (failure plain_numbers no_env
          (ThrownError {| name := "SyntaxError";
                          message := "Unexpected token < in JSON" |})),
     [Fetch (forwarding_call no_env png);
      ConsoleError "OCR API Error:"
        (ThrownError {| name := "SyntaxError";
                        message := "Unexpected token < in JSON" |})]).
Proof.
  apply (POST_unreadable_success_body plain_numbers no_env (answers garbled)
           (upload png) png garbled).
  - sample_accepted.
  - reflexivity.
  - reflexivity.
  - reflexivity.
Defined.

Lemma POST_body_without_properties_witness :
  run (POST plain_numbers no_env (answers bare_number) (upload png))
  = (Returned {| response_status := 200;
                 response_body :=
                   VObj [("text", VStr ""); ("confidence", VNull);
                         ("layout", VNull); ("processing_time", VNull)] |},
     [Fetch (forwarding_call no_env png)]).
Proof.
  apply (POST_body_without_properties plain_numbers no_env
           (answers bare_number) (upload png) png bare_number (VNum 5)).
  - sample_accepted.
  - reflexivity.
  - reflexivity.
  - reflexivity.
  - exact I.
Defined.

Lemma POST_replaces_falsy_fields_witness :
  exists out,
    fst (run (POST plain_numbers no_env (answers unsure) (upload png)))
    = Returned {| response_status := 200; response_body := VObj out |}
    /\ (truthy (field "text" [("text", VStr "x"); ("confidence", VNum 0)])
        = false ->
        lookup "text" out = Some (VStr ""))
    /\ (forall k,
          In k ["confidence"; "layout"; "processing_time"] ->
          truthy (field k [("text", VStr "x"); ("confidence", VNum 0)])
          = false ->
          lookup k out = Some VNull).
Proof.
  apply (POST_replaces_falsy_fields plain_numbers no_env (answers unsure)
           (upload png) png unsure).
  - sample_accepted.
  - reflexivity.
  - reflexivity.
  - reflexivity.
Defined.

Lemma POST_hands_on_truthy_fields_witness :
  exists out,
    fst (run (POST plain_numbers no_env (answers hello) (upload png)))
    = Returned {| response_status := 200; response_body := VObj out |}
    /\ lookup "confidence" out = Some (VNum 0.87).
Proof.
  apply (POST_hands_on_truthy_fields plain_numbers no_env (answers hello)
           (upload png) png hello
           [("text", VStr "hello"); ("confidence", VNum 0.87)]).
  - sample_accepted.
  - reflexivity.
  - reflexivity.
  - reflexivity.
  - right. left. reflexivity.
  - reflexivity.
  - reflexivity.
  - reflexivity.
Defined.

Lemma POST_checks_size_before_type_witness :
  run (POST plain_numbers no_env (answers hello) (upload big_pdf))
  = (Returned {| response_status := 400;
                 response_body :=
                   VObj [("error",
                          VStr "ファイルサイズは10MB以下にしてください")] |},
     []).
Proof.
  apply (POST_checks_size_before_type plain_numbers no_env (answers hello)
           (upload big_pdf) big_pdf).
  - eexists. split; reflexivity.
  - reflexivity.
Defined.

Lemma POST_backend_address_witness :
  exists c,
    backend_calls
      (snd (run (POST plain_numbers staged_env (answers hello) (upload png))))
    = [c]
    /\ method (init c) = "POST"
    /\ body (init c) = [("file", EntryFile png)]
    /\ (BACKEND_URL staged_env = None \/ BACKEND_URL staged_env = Some "" ->
        url c = "http://localhost:8000/api/v1/ocr/process")
    /\ (forall u, BACKEND_URL staged_env = Some u -> u <> "" ->
        url c = (u ++ "/api/v1/ocr/process")%string).
Proof.
  apply (POST_backend_address plain_numbers staged_env (answers hello)
           (upload png) png).
  sample_accepted.
Defined.

End RouteFacts.

(* ================================================================== *)
(** * Facts about the upload page *)
(* ================================================================== *)

Module PageFacts.
Import JS Page Vocabulary Samples.

(** C6. From any state, [resetAll] leaves no file, an empty preview, no
    result and an empty error message, as in the initial state; the busy
    flag is the one cell it does not touch. *)
Theorem resetAll_clears s :
  file (perform resetAll s) = None
  /\ imagePreview (perform resetAll s) = ""
  /\ ocrResult (perform resetAll s) = VNull
  /\ error (perform resetAll s) = ""
  /\ perform resetAll s
     = {| file := file initial;
          imagePreview := imagePreview initial;
          ocrResult := ocrResult initial;
          isProcessing := isProcessing s;
          error := error initial |}.
Proof. repeat split. Qed.

(** C7. With a result object whose [text] is the string [t], the download
    action saves one file whose whole content is [t]; no other property of
    the result enters the file. *)
Theorem downloadResult_saves_text number_to_string s now props t :
  ocrResult s = VObj props ->
  lookup "text" props = Some (VStr t) ->
  run (downloadResult number_to_string s now)
  = (Returned tt,
     [Download {| content := t;
                  content_type := "text/plain";
                  filename := "ocr-result-" ++ string_of_N now ++ ".txt" |}]).
Proof.
  intros Hresult Htext.
  unfold run, downloadResult. rewrite Hresult. cbn [truthy negb].
  unfold bind, get, ret, field. rewrite Htext. reflexivity.
Qed.

Lemma downloadResult_saves_text_witness :
  run (downloadResult plain_numbers recognized 1730600000000)
  = (Returned tt,
     [Download {| content := "hello";
                  content_type := "text/plain";
                  filename := "ocr-result-" ++ string_of_N 1730600000000
                              ++ ".txt" |}]).
Proof.
  apply (downloadResult_saves_text plain_numbers recognized 1730600000000
           [("text", VStr "hello"); ("confidence", VNum 0.87)] "hello").
  - reflexivity.
  - reflexivity.
Defined.

(** C8, as stated, fails on a page that already holds a selection: a
    turned-down drop leaves the earlier file and preview in place, and the
    process button stays on the page. *)
Lemma onDrop_rejection_keeps_selection :
  turned_down [pdf]
  /\ file (perform (onDrop [pdf]) previewed) = Some png
  /\ imagePreview (perform (onDrop [pdf]) previewed)
     = "data:image/png;base64,iVBORw0KGgo="
  /\ process_button (render (perform (onDrop [pdf]) previewed)) = Some false
  /\ ~ (file (perform (onDrop [pdf]) previewed) = None
        /\ imagePreview (perform (onDrop [pdf]) previewed) = "").
Proof.
  repeat split. intros [Hfile _]. discriminate Hfile.
Qed.

(** C8, amended. A turned-down drop (nothing dropped, or a first file whose
    type does not start with [image/]) does one thing: it sets a non-empty
    error message. It starts no file read and no network call, and leaves
    file, preview, result and busy flag as they were; so on a page without
    a preview there is still no preview and no process button. *)
Theorem onDrop_rejection_only_sets_error s acceptedFiles :
  turned_down acceptedFiles ->
  run (onDrop acceptedFiles)
  = (Returned tt, [Set_ (setError "画像ファイルを選択してください")])
  /\ error (perform (onDrop acceptedFiles) s) <> ""
  /\ file (perform (onDrop acceptedFiles) s) = file s
  /\ imagePreview (perform (onDrop acceptedFiles) s) = imagePreview s
  /\ ocrResult (perform (onDrop acceptedFiles) s) = ocrResult s
  /\ isProcessing (perform (onDrop acceptedFiles) s) = isProcessing s
  /\ (file s = None -> imagePreview s = "" ->
      file (perform (onDrop acceptedFiles) s) = None
      /\ preview (render (perform (onDrop acceptedFiles) s)) = None
      /\ process_button (render (perform (onDrop acceptedFiles) s)) = None).
Proof.
  intros Hdown.
  assert (Hrun : run (onDrop acceptedFiles)
                 = (Returned tt,
                    [Set_ (setError "画像ファイルを選択してください")])).
  { unfold run, onDrop. destruct acceptedFiles as [|f rest]; [reflexivity|].
    cbn [first]. cbn in Hdown. rewrite Hdown. reflexivity. }
  unfold perform. rewrite Hrun. cbn [snd state_after set file imagePreview
                                      ocrResult isProcessing error].
  split; [reflexivity|]. split; [discriminate|].
  do 4 (split; [reflexivity|]).
  intros Hfile Hpreview. unfold render.
  cbn [imagePreview]. rewrite Hpreview.
  split; [exact Hfile|]. destruct (renders _); split; reflexivity.
Qed.

Lemma onDrop_rejection_only_sets_error_witness :
  run (onDrop [pdf])
  = (Returned tt, [Set_ (setError "画像ファイルを選択してください")])
  /\ process_button (render (perform (onDrop [pdf]) initial)) = None.
Proof.
  destruct (onDrop_rejection_only_sets_error initial [pdf])
    as (Hrun & _ & _ & _ & _ & _ & Hidle).
  - reflexivity.
  - split; [exact Hrun|]. apply Hidle; reflexivity.
Defined.

Section Processing.
Variable number_to_string : float -> string.
Variable env : ProcessEnv.
Variable net : network.

(** C10. When the page's request fails, because [fetch] throws or
    because the answer is outside 2xx, the handler sets the error message
    and clears the busy flag, and the result, the file and the preview
    are what they were: a result from an earlier run stays next to the
    new error. *)
Theorem processOCR_failure_keeps_result s f :
  file s = Some f ->
  (exists e, net (direct_call env f) = FetchRejects e)
  \/ (exists r, net (direct_call env f) = FetchResolves r /\ ok r = false) ->
  error (perform (processOCR number_to_string env net s) s)
  = match net (direct_call env f) with
    | FetchRejects e => message e
    | FetchResolves _ => "OCR処理に失敗しました"
    end
  /\ isProcessing (perform (processOCR number_to_string env net s) s) = false
  /\ ocrResult (perform (processOCR number_to_string env net s) s)
     = ocrResult s
  /\ file (perform (processOCR number_to_string env net s) s) = file s
  /\ imagePreview (perform (processOCR number_to_string env net s) s)
     = imagePreview s.
Proof.
  intros Hfile Hfails.
  unfold perform, run, processOCR. rewrite Hfile.
  unfold bind, emit, try_finally, try_catch, fetch, bind, emit,
    FormData_append, fetch_event, page_fetch_event.
  cbn [app]. fold (direct_call env f).
  destruct Hfails as [(e & ->)|(r & -> & Hok)].
  - unfold throw. cbn. repeat split; exact Hfile.
  - unfold ret. rewrite Hok. cbn. repeat split; exact Hfile.
Qed.
End Processing.

Lemma processOCR_failure_keeps_result_witness :
  error (perform (processOCR plain_numbers no_env unreachable recognized)
           recognized) = "fetch failed"
  /\ isProcessing
       (perform (processOCR plain_numbers no_env unreachable recognized)
          recognized) = false
  /\ ocrResult
       (perform (processOCR plain_numbers no_env unreachable recognized)
          recognized)
     = VObj [("text", VStr "hello"); ("confidence", VNum 0.87)]
  /\ file (perform (processOCR plain_numbers no_env unreachable recognized)
             recognized) = Some png
  /\ imagePreview
       (perform (processOCR plain_numbers no_env unreachable recognized)
          recognized) = "data:image/png;base64,iVBORw0KGgo=".
Proof.
  apply (processOCR_failure_keeps_result plain_numbers no_env unreachable
           recognized png).
  - reflexivity.
  - left. eexists. reflexivity.
Defined.

(* ------------------------------------------------------------------ *)
(** ** The handlers, one by one and together *)

Lemma onDrop_image s f others :
  String.prefix "image/" (type f) = true ->
  run (onDrop (f :: others))
  = (Returned tt,
     [Set_ (setFile (Some f)); Set_ (setError ""); ReadAsDataURL f])
  /\ perform (onDrop (f :: others)) s
     = {| file := Some f;
          imagePreview := imagePreview s;
          ocrResult := ocrResult s;
          isProcessing := isProcessing s;
          error := "" |}.
Proof.
  intros Hty.
  assert (Hrun : run (onDrop (f :: others))
                 = (Returned tt,
                    [Set_ (setFile (Some f)); Set_ (setError "");
                     ReadAsDataURL f])).
  { unfold run, onDrop. cbn [first]. rewrite Hty. reflexivity. }
  split; [exact Hrun|]. unfold perform. now rewrite Hrun.
Qed.

(** X16. Dropping files of which the first is an image selects that first
    file, clears the error message and starts one local read of it;
    there is no network call, the other files are ignored, and preview,
    result and busy flag are left as they were. *)
Theorem onDrop_image_selects_first s f others :
  String.prefix "image/" (type f) = true ->
  run (onDrop (f :: others))
  = (Returned tt,
     [Set_ (setFile (Some f)); Set_ (setError ""); ReadAsDataURL f])
  /\ perform (onDrop (f :: others)) s
     = {| file := Some f;
          imagePreview := imagePreview s;
          ocrResult := ocrResult s;
          isProcessing := isProcessing s;
          error := "" |}.
Proof. apply onDrop_image. Qed.

(** X17. After an image is dropped, the process button appears only once
    the file has been read. On a page that renders (no result stored, or
    one whose card can be built): without a preview there is no process
    button after the drop, and once the read delivers a non-empty data
    URL the page shows that preview, the reset button and the process
    button (disabled exactly when a request is running), no error box
    and no usage guide. *)
Theorem preview_follows_the_read s f others url :
  String.prefix "image/" (type f) = true ->
  url <> "" ->
  renders s = true ->
  (imagePreview s = "" ->
   process_button (render (perform (onDrop (f :: others)) s)) = None)
  /\ render (perform (reader_onload url) (perform (onDrop (f :: others)) s))
     = {| preview := Some url;
          reset_button := true;
          process_button := Some (isProcessing s);
          error_box := None;
          result_card := truthy (ocrResult s);
          download_button := truthy (ocrResult s);
          busy_card := isProcessing s;
          guide := false |}.
Proof.
  intros Hty Hurl Hrenders.
  destruct (onDrop_image s f others Hty) as [_ ->].
  split.
  - intros Hnone. unfold render. cbn [imagePreview]. rewrite Hnone.
    now destruct (renders _).
  - unfold perform, run, reader_onload, emit, render, renders in *.
    cbn [app snd state_after set file imagePreview ocrResult isProcessing
           error].
    rewrite Hrenders.
    destruct (String.eqb_spec url ""); [contradiction|reflexivity].
Qed.

(** X18. [resetAll] brings the page back to its initial state exactly
    when no request is running: it leaves the busy flag as it is. *)
Theorem resetAll_back_to_initial s :
  perform resetAll s = initial <-> isProcessing s = false.
Proof.
  unfold perform, run, resetAll, initial. cbn. split.
  - intros E. now injection E.
  - now intros ->.
Qed.

Section Handlers.
Variable number_to_string : float -> string.
Variable env : ProcessEnv.
Variable net : network.

Abbreviation processOCR := (processOCR number_to_string env net).
Abbreviation downloadResult := (downloadResult number_to_string).

Lemma processOCR_steps s :
  run (processOCR s)
  = (Returned tt,
     match file s with
     | None => []
     | Some f =>
         [Set_ (setIsProcessing true);
          Set_ (setError "");
          Fetch (direct_call env f);
          Set_ (settled (net (direct_call env f)));
          Set_ (setIsProcessing false)]
     end).
Proof.
  unfold run, Page.processOCR. destruct (file s) as [f|]; [|reflexivity].
  unfold bind, emit, try_finally, try_catch, fetch, bind, emit,
    FormData_append, fetch_event, page_fetch_event.
  cbn [app]. fold (direct_call env f). unfold settled.
  destruct (net (direct_call env f)) as [e|r]; [reflexivity|].
  unfold ret. destruct (ok r); cbn [negb]; [|reflexivity].
  unfold Response_json. destruct (body_json r); reflexivity.
Qed.

(** X19. [processOCR] never throws. Without a selected file it does
    nothing; with one it switches the busy flag on, clears the error,
    makes one backend call, stores one outcome (the parsed body, or an
    error message) and switches the busy flag off. *)
Theorem processOCR_trace s :
  run (processOCR s)
  = (Returned tt,
     match file s with
     | None => []
     | Some f =>
         [Set_ (setIsProcessing true);
          Set_ (setError "");
          Fetch (direct_call env f);
          Set_ (settled (net (direct_call env f)));
          Set_ (setIsProcessing false)]
     end).
Proof. apply processOCR_steps. Qed.

(** X20. With a file selected, [processOCR] makes exactly one backend
    call whatever the busy flag says, and whatever the outcome its
    updates end with the busy flag off and never touch the file or the
    preview. *)
Theorem processOCR_always_ends_idle s f :
  file s = Some f ->
  network_calls (snd (run (processOCR s))) = [direct_call env f]
  /\ forall s0,
       isProcessing (state_after (snd (run (processOCR s))) s0) = false
       /\ file (state_after (snd (run (processOCR s))) s0) = file s0
       /\ imagePreview (state_after (snd (run (processOCR s))) s0)
          = imagePreview s0.
Proof.
  intros Hfile. rewrite processOCR_steps, Hfile. split; [reflexivity|].
  intros s0. cbn [snd state_after].
  unfold settled.
  destruct (net (direct_call env f)) as [e|r]; [repeat split|].
  destruct (ok r); [|repeat split].
  destruct (body_json r); repeat split.
Qed.

(** X21. On a 2xx answer with a JSON body the page stores that body as it
    is, clears the error message and ends idle. *)
Theorem processOCR_success_stores_body s f r v :
  file s = Some f ->
  net (direct_call env f) = FetchResolves r ->
  ok r = true ->
  body_json r = JsonResolves v ->
  perform (processOCR s) s
  = {| file := file s;
       imagePreview := imagePreview s;
       ocrResult := v;
       isProcessing := false;
       error := "" |}.
Proof.
  intros Hfile Hnet Hok Hbody. unfold perform.
  rewrite processOCR_steps, Hfile. unfold settled.
  rewrite Hnet, Hok, Hbody. cbn. now rewrite ?Hfile.
Qed.

(** X22. On a 2xx answer whose body is not JSON the page reports the
    parse failure's message, keeps the earlier result and ends idle. *)
Theorem processOCR_unreadable_answer s f r e :
  file s = Some f ->
  net (direct_call env f) = FetchResolves r ->
  ok r = true ->
  body_json r = JsonRejects e ->
  perform (processOCR s) s
  = {| file := file s;
       imagePreview := imagePreview s;
       ocrResult := ocrResult s;
       isProcessing := false;
       error := message e |}.
Proof.
  intros Hfile Hnet Hok Hbody. unfold perform.
  rewrite processOCR_steps, Hfile. unfold settled.
  rewrite Hnet, Hok, Hbody. cbn. now rewrite ?Hfile.
Qed.

(** X23. A 2xx answer whose JSON body is falsy ([null], [false], [0], the
    empty string) leaves the page with no result card, no download
    button and no error box. *)
Theorem processOCR_falsy_answer_shows_nothing s f r v :
  file s = Some f ->
  net (direct_call env f) = FetchResolves r ->
  ok r = true ->
  body_json r = JsonResolves v ->
  truthy v = false ->
  result_card (render (perform (processOCR s) s)) = false
  /\ download_button (render (perform (processOCR s) s)) = false
  /\ error_box (render (perform (processOCR s) s)) = None
  /\ busy_card (render (perform (processOCR s) s)) = false.
Proof.
  intros Hfile Hnet Hok Hbody Hfalsy.
  unfold perform. rewrite processOCR_steps, Hfile. unfold settled.
  rewrite Hnet, Hok, Hbody.
  unfold render, renders.
  cbn [snd state_after set file imagePreview ocrResult isProcessing error].
  rewrite Hfalsy. repeat split.
Qed.

(** X24. Resetting while a request is running does not cancel it: the
    busy flag stays on after the reset, and when a 2xx answer arrives
    its body is stored although file and preview are gone. *)
Theorem reset_does_not_cancel_request s f r v :
  file s = Some f ->
  net (direct_call env f) = FetchResolves r ->
  ok r = true ->
  body_json r = JsonResolves v ->
  isProcessing (perform resetAll (state_after (until_fetch (snd (run (processOCR s)))) s)) = true
  /\ meanwhile (processOCR s) resetAll s
     = {| file := None;
          imagePreview := "";
          ocrResult := v;
          isProcessing := false;
          error := "" |}.
Proof.
  intros Hfile Hnet Hok Hbody. unfold meanwhile.
  rewrite processOCR_steps, Hfile. unfold settled.
  rewrite Hnet, Hok, Hbody. split; reflexivity.
Qed.

(** What React takes as a child has a string form. *)
Lemma child_has_string : forall v, child v = true ->
  exists c, to_string number_to_string v = Some c.
Proof.
  fix IH 1. intros [| | [] | n | t | items | props] Hchild;
    cbn [child] in Hchild; try discriminate Hchild;
    try (eexists; reflexivity).
  cbn [to_string]. revert Hchild. generalize items. fix IHitems 1.
  intros [|x rest] Hchild; [eexists; reflexivity|].
  cbn [forallb] in Hchild. apply andb_prop in Hchild as [Hx Hrest].
  destruct (IHitems rest Hrest) as (joined & Hjoined).
  destruct (IH x Hx) as (c & Hc).
  assert (Helement : exists a,
             match x with
             | VUndefined | VNull => Some ""
             | _ => to_string number_to_string x
             end = Some a).
  { clear IH IHitems.
    destruct x; try (eexists; reflexivity); exists c; exact Hc. }
  destruct Helement as (a & Ha).
  destruct rest as [|y rest].
  - exists a. exact Ha.
  - rewrite Ha, Hjoined. eexists. reflexivity.
Qed.

Lemma downloadResult_steps s now :
  run (downloadResult s now)
  = if truthy (ocrResult s)
    then match to_string number_to_string (read "text" (ocrResult s)) with
         | Some c =>
             (Returned tt,
              [Download
                 {| content := c;
                    content_type := "text/plain";
                    filename := "ocr-result-" ++ string_of_N now ++ ".txt" |}])
         | None => (Threw (ThrownError cannot_convert), [])
         end
    else (Returned tt, []).
Proof.
  unfold run, Page.downloadResult.
  destruct (truthy (ocrResult s)) eqn:Htruthy; cbn [negb]; [|reflexivity].
  destruct (ocrResult s); try discriminate Htruthy;
    unfold bind, get, ret, ToString; cbn [read];
    destruct (to_string number_to_string _); reflexivity.
Qed.

(** X25. When the download button is on the page, [downloadResult] does
    not throw and saves exactly one file: a [text/plain] file named
    [ocr-result-<now>.txt] holding the string form of the result's
    [text]. With a falsy result (as before any run) it does nothing. *)
Theorem downloadResult_follows_button s now :
  (download_button (render s) = true ->
   exists c,
     to_string number_to_string (read "text" (ocrResult s)) = Some c
     /\ run (downloadResult s now)
        = (Returned tt,
           [Download
              {| content := c;
                 content_type := "text/plain";
                 filename := "ocr-result-" ++ string_of_N now ++ ".txt" |}]))
  /\ (truthy (ocrResult s) = false ->
      run (downloadResult s now) = (Returned tt, [])).
Proof.
  rewrite downloadResult_steps. split.
  - unfold render, renders.
    destruct (truthy (ocrResult s));
      [|cbn [download_button]; discriminate].
    destruct (card_renders (ocrResult s)) eqn:Hcard;
      cbn [download_button]; [|discriminate].
    intros _. unfold card_renders in Hcard.
    apply andb_prop in Hcard as [_ Htext].
    destruct (child_has_string _ Htext) as (c & Hc).
    exists c. rewrite Hc. split; reflexivity.
  - now intros ->.
Qed.

(** X26. For a result object without a [text] property the saved file
    holds the nine characters [undefined]. *)
Theorem downloadResult_without_text s now props :
  ocrResult s = VObj props ->
  lookup "text" props = None ->
  run (downloadResult s now)
  = (Returned tt,
     [Download {| content := "undefined";
                  content_type := "text/plain";
                  filename := "ocr-result-" ++ string_of_N now ++ ".txt" |}]).
Proof.
  intros Hresult Htext. rewrite downloadResult_steps.
  rewrite Hresult. cbn [truthy read].
  unfold field. now rewrite Htext.
Qed.

End Handlers.

Lemma onDrop_image_selects_first_witness :
  run (onDrop [jpg; pdf])
  = (Returned tt,
     [Set_ (setFile (Some jpg)); Set_ (setError ""); ReadAsDataURL jpg])
  /\ perform (onDrop [jpg; pdf]) recognized
     = {| file := Some jpg;
          imagePreview := imagePreview recognized;
          ocrResult := ocrResult recognized;
          isProcessing := isProcessing recognized;
          error := "" |}.
Proof.
  apply (onDrop_image_selects_first recognized jpg [pdf]). reflexivity.
Defined.

Lemma preview_follows_the_read_witness :
  (imagePreview initial = "" ->
   process_button (render (perform (onDrop [jpg]) initial)) = None)
  /\ render (perform (reader_onload "data:image/jpeg;base64,/9j/4AAQ")
               (perform (onDrop [jpg]) initial))
     = {| preview := Some "data:image/jpeg;base64,/9j/4AAQ";
          reset_button := true;
          process_button := Some (isProcessing initial);
          error_box := None;
          result_card := truthy (ocrResult initial);
          download_button := truthy (ocrResult initial);
          busy_card := isProcessing initial;
          guide := false |}.
Proof.
  apply (preview_follows_the_read initial jpg []
           "data:image/jpeg;base64,/9j/4AAQ").
  - reflexivity.
  - discriminate.
  - reflexivity.
Defined.

Lemma processOCR_always_ends_idle_witness :
  network_calls
    (snd (run (processOCR plain_numbers no_env unreachable recognized)))
  = [direct_call no_env png]
  /\ forall s0,
       isProcessing
         (state_after
            (snd (run (processOCR plain_numbers no_env unreachable
                         recognized))) s0) = false
       /\ file (state_after
                  (snd (run (processOCR plain_numbers no_env unreachable
                               recognized))) s0) = file s0
       /\ imagePreview
            (state_after
               (snd (run (processOCR plain_numbers no_env unreachable
                            recognized))) s0) = imagePreview s0.
Proof.
  apply (processOCR_always_ends_idle plain_numbers no_env unreachable
           recognized png).
  reflexivity.
Defined.

Lemma processOCR_success_stores_body_witness :
  perform (processOCR plain_numbers no_env (answers with_model) previewed)
    previewed
  = {| file := file previewed;
       imagePreview := imagePreview previewed;
       ocrResult :=
         VObj [("text", VStr "hello"); ("model_used", VStr "dots.ocr")];
       isProcessing := false;
       error := "" |}.
Proof.
  apply (processOCR_success_stores_body plain_numbers no_env
           (answers with_model) previewed png with_model).
  - reflexivity.
  - reflexivity.
  - reflexivity.
  - reflexivity.
Defined.

Lemma processOCR_unreadable_answer_witness :
  perform (processOCR plain_numbers no_env (answers garbled) recognized)
    recognized
  = {| file := file recognized;
       imagePreview := imagePreview recognized;
       ocrResult := ocrResult recognized;
       isProcessing := false;
       error := "Unexpected token < in JSON" |}.
Proof.
  apply (processOCR_unreadable_answer plain_numbers no_env (answers garbled)
           recognized png garbled
           {| name := "SyntaxError"; message := "Unexpected token < in JSON" |}).
  - reflexivity.
  - reflexivity.
  - reflexivity.
  - reflexivity.
Defined.

Lemma processOCR_falsy_answer_shows_nothing_witness :
  result_card
    (render (perform (processOCR plain_numbers no_env (answers null_body)
                        previewed) previewed)) = false
  /\ download_button
       (render (perform (processOCR plain_numbers no_env (answers null_body)
                           previewed) previewed)) = false
  /\ error_box
       (render (perform (processOCR plain_numbers no_env (answers null_body)
                           previewed) previewed)) = None
  /\ busy_card
       (render (perform (processOCR plain_numbers no_env (answers null_body)
                           previewed) previewed)) = false.
Proof.
  apply (processOCR_falsy_answer_shows_nothing plain_numbers no_env
           (answers null_body) previewed png null_body VNull).
  - reflexivity.
  - reflexivity.
  - reflexivity.
  - reflexivity.
  - reflexivity.
Defined.

Lemma reset_does_not_cancel_request_witness :
  isProcessing
    (perform resetAll
       (state_after
          (until_fetch
             (snd (run (processOCR plain_numbers no_env (answers hello)
                          previewed)))) previewed)) = true
  /\ meanwhile (processOCR plain_numbers no_env (answers hello) previewed)
       resetAll previewed
     = {| file := None;
          imagePreview := "";
          ocrResult := VObj [("text", VStr "hello"); ("confidence", VNum 0.87)];
          isProcessing := false;
          error := "" |}.
Proof.
  apply (reset_does_not_cancel_request plain_numbers no_env (answers hello)
           previewed png hello).
  - reflexivity.
  - reflexivity.
  - reflexivity.
  - reflexivity.
Defined.

Lemma downloadResult_follows_button_witness :
  exists c,
    to_string plain_numbers (read "text" (ocrResult recognized)) = Some c
    /\ run (downloadResult plain_numbers recognized 1730600000000)
       = (Returned tt,
          [Download
             {| content := c;
                content_type := "text/plain";
                filename := "ocr-result-" ++ string_of_N 1730600000000
                            ++ ".txt" |}]).
Proof.
  apply (proj1 (downloadResult_follows_button plain_numbers recognized
                  1730600000000)).
  reflexivity.
Defined.

Lemma downloadResult_without_text_witness :
  run (downloadResult plain_numbers textless 1730600000000)
  = (Returned tt,
     [Download {| content := "undefined";
                  content_type := "text/plain";
                  filename := "ocr-result-" ++ string_of_N 1730600000000
                              ++ ".txt" |}]).
Proof.
  apply (downloadResult_without_text plain_numbers textless 1730600000000
           [("confidence", VNum 0.87)]).
  - reflexivity.
  - reflexivity.
Defined.

End PageFacts.
